(** * northfishclient backend: cart and order routers

    A shallow embedding of [routers/cart.py] and [routers/orders.py] over the
    tables declared in [models.py], with the request schema of
    [schemas.py] for cart items.  Each endpoint is a computation in a small
    monad of database sessions: a session holds the committed database, the
    uncommitted working copy, and a counter of the database round trips made
    so far; a round trip may raise.  What a request leaves behind is the
    committed database of its session. *)

From Stdlib Require Import ZArith QArith List String Bool Lia.
Import ListNotations.

Open Scope Z_scope.

(** ** Tables ([models.py])

    Integer columns are Python/SQL integers ([Z]); [Float] columns are
    taken as exact rationals ([Q]), so rounding is outside this model;
    [String] columns are strings.  NULLs in nullable columns are not
    modelled, except [birthday]. *)

Module Product.
Record t := mk {
  id : Z;
  name : string;
  description : string;
  price : Q;
  image_url : string;
  weight : string;
  category_id : Z
}.
End Product.

Module User.
Record t := mk {
  id : Z;
  username : string;
  password_hash : string;
  email : string;
  phone : string;
  full_name : string;
  birthday : option Z;
  is_active : bool;
  created_at : Z
}.
End User.

Module Cart.
Record t := mk {
  id : Z;
  user_id : Z;
  product_id : Z;
  quantity : Z
}.

(** [existing_item.quantity = new_quantity] *)
Definition set_quantity (q : Z) (c : t) : t :=
  mk (id c) (user_id c) (product_id c) q.
End Cart.

Module Order.
Record t := mk {
  id : Z;
  user_id : Z;
  total_price : Q;
  status : string;
  created_at : Z
}.
End Order.

Module Category.
Record t := mk {
  id : Z;
  name : string;
  slug : string
}.
End Category.

(** The database: one list of rows per table, in storage order. *)
Record DB := mkDB {
  products : list Product.t;
  users : list User.t;
  categories : list Category.t;
  cart : list Cart.t;
  orders : list Order.t
}.

Definition with_cart (d : DB) (c : list Cart.t) : DB :=
  mkDB (products d) (users d) (categories d) c (orders d).

Definition with_orders (d : DB) (o : list Order.t) : DB :=
  mkDB (products d) (users d) (categories d) (cart d) o.

(** ** Exceptions *)

(** The [detail] texts of the [HTTPException]s raised by the routers. *)
Inductive detail :=
  | QuantityOverMax        (* "Количество товара не может превышать 99" *)
  | ProductNotFound        (* "Товар не найден" *)
  | TotalQuantityOverMax   (* "Общее количество товара не может превышать 99" *)
  | QuantityBelowOne       (* "Количество товара должно быть не менее 1" *)
  | CartItemNotFound       (* "Товар в корзине не найден" *)
  | CartIsEmpty.           (* "Cart is empty" *)

Inductive exception :=
  | HTTPException (status_code : Z) (d : detail)
  | OperationalError      (* a database round trip failed *)
  | InvalidRequestError   (* [db.refresh] of a row that is gone *)
  | AttributeError.       (* [item.product.price] with [item.product] None *)

Inductive outcome (A : Type) :=
  | Returned (a : A)
  | Raised (e : exception).
Arguments Returned {A} a.
Arguments Raised {A} e.

(** The spec's error classes. *)
Definition ValidationError {A} (o : outcome A) : Prop :=
  exists d, o = Raised (HTTPException 400 d).

Definition NotFoundError {A} (o : outcome A) : Prop :=
  exists d, o = Raised (HTTPException 404 d).

(** ** Sessions *)

Record Session := mkSession {
  committed : DB;
  pending : DB;
  ncalls : nat
}.

Definition M (A : Type) : Type := Session -> Session * outcome A.

Definition ret {A} (a : A) : M A := fun s => (s, Returned a).

Definition raise {A} (e : exception) : M A := fun s => (s, Raised e).

Definition bind {A B} (m : M A) (k : A -> M B) : M B :=
  fun s =>
    match m s with
    | (s', Returned a) => k a s'
    | (s', Raised e) => (s', Raised e)
    end.

Declare Scope session_scope.
Delimit Scope session_scope with session.
Notation "x <- m ;; k" := (bind m (fun x => k))
  (at level 100, m at next level, right associativity) : session_scope.
Notation "m ;; k" := (bind m (fun _ => k))
  (at level 100, right associativity) : session_scope.
Open Scope session_scope.

Definition get_pending : M DB := fun s => (s, Returned (pending s)).

Definition put_pending (d : DB) : M unit :=
  fun s => (mkSession (committed s) d (ncalls s), Returned tt).

(** Primary keys handed out by the engine: one more than the largest in
    the table. *)
Definition next_id (ids : list Z) : Z :=
  1 + fold_right Z.max 0 ids.

Definition MAX_QUANTITY : Z := 99.

(** [user_id = 1], hard-coded in every endpoint. *)
Definition user_id : Z := 1.

Section Routers.

(** Which database round trips of the request raise, by position. *)
Variable fails : nat -> bool.

(** The request's timestamp, for [created_at]'s [func.now()]. *)
Variable now : Z.

(** *** Session primitives *)

Definition db_call : M unit :=
  fun s =>
    let s' := mkSession (committed s) (pending s) (S (ncalls s)) in
    if fails (ncalls s) then (s', Raised OperationalError)
    else (s', Returned tt).

(** [db.commit()] *)
Definition commit : M unit :=
  db_call ;;
  fun s => (mkSession (pending s) (pending s) (ncalls s), Returned tt).

(** [db.query(Product).filter(p).first()] *)
Definition query_Product_first (p : Product.t -> bool)
  : M (option Product.t) :=
  db_call ;; d <- get_pending ;; ret (find p (products d)).

(** [db.query(Cart).filter(p).first()] *)
Definition query_Cart_first (p : Cart.t -> bool) : M (option Cart.t) :=
  db_call ;; d <- get_pending ;; ret (find p (cart d)).

(** [db.query(Cart).filter(p).all()] *)
Definition query_Cart_all (p : Cart.t -> bool) : M (list Cart.t) :=
  db_call ;; d <- get_pending ;; ret (filter p (cart d)).

(** [db.query(Cart).filter(p).count()] *)
Definition query_Cart_count (p : Cart.t -> bool) : M Z :=
  db_call ;; d <- get_pending ;; ret (Z.of_nat (List.length (filter p (cart d)))).

(** [db.query(Order).all()] *)
Definition query_Order_all : M (list Order.t) :=
  db_call ;; d <- get_pending ;; ret (orders d).

(** [db.add(Cart(user_id=u, product_id=p, quantity=q))]; the row gets
    its primary key when it is flushed. *)
Definition add_Cart (u p q : Z) : M Z :=
  d <- get_pending ;;
  let pk := next_id (map Cart.id (cart d)) in
  put_pending (with_cart d (cart d ++ [Cart.mk pk u p q])) ;;
  ret pk.

(** [db.add(Order(user_id=u, total_price=t))], with the column defaults
    [status="pending"] and [created_at=func.now()]. *)
Definition add_Order (u : Z) (t : Q) : M Z :=
  d <- get_pending ;;
  let pk := next_id (map Order.id (orders d)) in
  put_pending (with_orders d (orders d ++ [Order.mk pk u t "pending" now])) ;;
  ret pk.

(** Assigning [quantity] on a loaded row: an UPDATE by primary key. *)
Definition update_Cart_quantity (pk q : Z) : M unit :=
  d <- get_pending ;;
  put_pending
    (with_cart d
       (map (fun c => if Cart.id c =? pk then Cart.set_quantity q c else c)
            (cart d))).

(** [db.delete(cart_item)]: a DELETE by primary key. *)
Definition delete_Cart (pk : Z) : M unit :=
  d <- get_pending ;;
  put_pending
    (with_cart d (filter (fun c => negb (Cart.id c =? pk)) (cart d))).

(** [db.query(Cart).delete()]: a bulk DELETE, emitted at once. *)
Definition query_Cart_delete : M unit :=
  db_call ;; d <- get_pending ;; put_pending (with_cart d []).

(** [db.refresh(row)] for a cart row. *)
Definition refresh_Cart (pk : Z) : M Cart.t :=
  db_call ;;
  d <- get_pending ;;
  match find (fun c => Cart.id c =? pk) (cart d) with
  | Some c => ret c
  | None => raise InvalidRequestError
  end.

(** [db.refresh(row)] for an order. *)
Definition refresh_Order (pk : Z) : M Order.t :=
  db_call ;;
  d <- get_pending ;;
  match find (fun o => Order.id o =? pk) (orders d) with
  | Some o => ret o
  | None => raise InvalidRequestError
  end.

(** [item.product]: the lazy load of the [relationship("Product")]. *)
Definition Cart_product (item : Cart.t) : M (option Product.t) :=
  query_Product_first (fun p => Product.id p =? Cart.product_id item).

(** *** [routers/cart.py] *)

Definition owned_product (pid : Z) (c : Cart.t) : bool :=
  (Cart.user_id c =? user_id) && (Cart.product_id c =? pid).

Definition owned_id (cart_id : Z) (c : Cart.t) : bool :=
  (Cart.id c =? cart_id) && (Cart.user_id c =? user_id).

Definition owned (c : Cart.t) : bool := Cart.user_id c =? user_id.

Definition add_to_cart (product_id quantity : Z) : M Cart.t :=
  if quantity >? MAX_QUANTITY then
    raise (HTTPException 400 QuantityOverMax)
  else
    product <- query_Product_first (fun p => Product.id p =? product_id) ;;
    match product with
    | None => raise (HTTPException 404 ProductNotFound)
    | Some _ =>
        existing_item <- query_Cart_first (owned_product product_id) ;;
        match existing_item with
        | Some existing_item =>
            let new_quantity := Cart.quantity existing_item + quantity in
            if new_quantity >? MAX_QUANTITY then
              raise (HTTPException 400 TotalQuantityOverMax)
            else
              update_Cart_quantity (Cart.id existing_item) new_quantity ;;
              commit ;;
              refresh_Cart (Cart.id existing_item)
        | None =>
            pk <- add_Cart user_id product_id quantity ;;
            commit ;;
            refresh_Cart pk
        end
    end.

Definition get_cart : M (list Cart.t) :=
  query_Cart_all owned.

Definition update_cart_quantity (cart_id quantity : Z) : M Cart.t :=
  if quantity <? 1 then
    raise (HTTPException 400 QuantityBelowOne)
  else if quantity >? MAX_QUANTITY then
    raise (HTTPException 400 QuantityOverMax)
  else
    cart_item <- query_Cart_first (owned_id cart_id) ;;
    match cart_item with
    | None => raise (HTTPException 404 CartItemNotFound)
    | Some cart_item =>
        update_Cart_quantity (Cart.id cart_item) quantity ;;
        commit ;;
        refresh_Cart (Cart.id cart_item)
    end.

Definition remove_from_cart (cart_id : Z) : M unit :=
  cart_item <- query_Cart_first (owned_id cart_id) ;;
  match cart_item with
  | None => raise (HTTPException 404 CartItemNotFound)
  | Some cart_item =>
      delete_Cart (Cart.id cart_item) ;;
      commit ;;
      ret tt
  end.

Definition get_cart_count : M Z :=
  query_Cart_count owned.

(** *** [routers/orders.py] *)

(** [sum(item.product.price * item.quantity for item in cart_items)]:
    a left fold from 0, loading each item's product as it goes. *)
Fixpoint sum_prices (cart_items : list Cart.t) (acc : Q) : M Q :=
  match cart_items with
  | [] => ret acc
  | item :: rest =>
      product <- Cart_product item ;;
      match product with
      | None => raise AttributeError
      | Some p =>
          sum_prices rest
            (acc + Product.price p * inject_Z (Cart.quantity item))%Q
      end
  end.

Definition create_order : M Order.t :=
  cart_items <- query_Cart_all (fun _ => true) ;;
  match cart_items with
  | [] => raise (HTTPException 400 CartIsEmpty)
  | _ :: _ =>
      total_price <- sum_prices cart_items 0%Q ;;
      pk <- add_Order 1 total_price ;;
      commit ;;
      order <- refresh_Order pk ;;
      query_Cart_delete ;;
      commit ;;
      ret order
  end.

Definition get_orders : M (list Order.t) :=
  query_Order_all.

(** *** Requests *)

(** Modelled from the spec: [get_db] of [database.py], which is not among
    the sources.  Each operation runs in one session scoped to the
    request, and a failed database call propagates to the caller: a
    request opens a session on the database, runs the endpoint and closes
    the session, so uncommitted work is dropped. *)
Definition run {A} (m : M A) (d : DB) : DB * outcome A :=
  let (s, r) := m (mkSession d d 0) in (committed s, r).

End Routers.

(** No round trip raises. *)
Definition no_faults : nat -> bool := fun _ => false.

(** ** Derived notions *)

(** The UPDATE of [quantity] by primary key, on one row. *)
Definition update_row (pk q : Z) (c : Cart.t) : Cart.t :=
  if Cart.id c =? pk then Cart.set_quantity q c else c.

(** What [db.refresh] answers for a key on a database. *)
Definition refreshed (pk : Z) (db : DB) : outcome Cart.t :=
  match find (fun c => Cart.id c =? pk) (cart db) with
  | Some c => Returned c
  | None => Raised InvalidRequestError
  end.

(** The total the fault-free sum arrives at, if every line's product is
    there. *)
Fixpoint total_of (ps : list Product.t) (items : list Cart.t) (acc : Q)
  : option Q :=
  match items with
  | [] => Some acc
  | item :: rest =>
      match find (fun p => Product.id p =? Cart.product_id item) ps with
      | None => None
      | Some p =>
          total_of ps rest
            (acc + Product.price p * inject_Z (Cart.quantity item))%Q
      end
  end.

(** The order Checkout writes for a total. *)
Definition new_order (now : Z) (db : DB) (t : Q) : Order.t :=
  Order.mk (next_id (map Order.id (orders db))) 1 t "pending" now.

Definition order_placed (db : DB) (o : Order.t) : DB :=
  with_orders db (orders db ++ [o]).

Definition cart_cleared (db : DB) : DB := with_cart db [].

(** The claim of atomicity: after a Checkout, whatever failed, either one
    order is new and the cart is empty, or both stores are as before. *)
Definition all_or_nothing (fails : nat -> bool) (now : Z) (db : DB) : Prop :=
  let db' := fst (run (create_order fails now) db) in
  (exists o, orders db' = orders db ++ [o] /\ cart db' = [])
  \/ (orders db' = orders db /\ cart db' = cart db).

(** The fifth round trip of a Checkout of one line is the bulk DELETE
    (after the cart query, the product load, the commit of the order and its
    refresh). *)
Definition delete_fails : nat -> bool := fun n => Nat.eqb n 4.

(** [CartItemCreate] of [schemas.py]: [product_id > 0] and
    [0 < quantity <= MAX_QUANTITY]. *)
Module CartItemCreate.
Record t := mk {
  product_id : Z;
  quantity : Z
}.

Definition MAX_QUANTITY : Z := 99.

Definition valid (c : t) : bool :=
  (0 <? product_id c) && (0 <? quantity c) && (quantity c <=? MAX_QUANTITY).
End CartItemCreate.

(** The service operations that write. *)
Inductive request :=
  | AddItem (product_id quantity : Z)
  | UpdateQuantity (cart_id quantity : Z)
  | RemoveItem (cart_id : Z)
  | Checkout.

(** The database a request leaves behind. *)
Definition serve (fails : nat -> bool) (now : Z) (r : request) (db : DB) : DB :=
  match r with
  | AddItem product_id quantity =>
      fst (run (add_to_cart fails product_id quantity) db)
  | UpdateQuantity cart_id quantity =>
      fst (run (update_cart_quantity fails cart_id quantity) db)
  | RemoveItem cart_id =>
      fst (run (remove_from_cart fails cart_id) db)
  | Checkout =>
      fst (run (create_order fails now) db)
  end.

(** A sequence of requests, each with its own faults and clock. *)
Fixpoint serve_all (rs : list ((nat -> bool) * Z * request)) (db : DB) : DB :=
  match rs with
  | [] => db
  | (fails, now, r) :: rest => serve_all rest (serve fails now r db)
  end.

Definition quantity_in_range (c : Cart.t) : Prop :=
  1 <= Cart.quantity c <= 99.

Definition cart_inv (db : DB) : Prop :=
  Forall quantity_in_range (cart db).

(** What the schema guarantees the core about an AddItem. *)
Definition admitted (r : request) : Prop :=
  match r with
  | AddItem _ quantity => 1 <= quantity
  | _ => True
  end.

(** The lines outside [target] are the same, in the same order. *)
Definition untouched (target : Cart.t -> bool) (l l' : list Cart.t) : Prop :=
  filter (fun c => negb (target c)) l' = filter (fun c => negb (target c)) l.

(** Only the cart table differs, and only inside [target]. *)
Definition frame (target : Cart.t -> bool) (db db' : DB) : Prop :=
  products db' = products db /\
  categories db' = categories db /\
  users db' = users db /\
  orders db' = orders db /\
  untouched target (cart db) (cart db').

(** The primary key of the cart table. *)
Definition cart_pk (db : DB) : Prop := NoDup (map Cart.id (cart db)).

(** The spec's total of some cart lines: the sum of price times quantity,
    a missing product counting for nothing. *)
Definition line_price (ps : list Product.t) (c : Cart.t) : Q :=
  match find (fun p => Product.id p =? Cart.product_id c) ps with
  | Some p => (Product.price p * inject_Z (Cart.quantity c))%Q
  | None => 0%Q
  end.

Definition spec_total (ps : list Product.t) (lines : list Cart.t) : Q :=
  fold_right (fun c acc => (line_price ps c + acc)%Q) 0%Q lines.

(** The user's cart, as [get_cart] lists it. *)
Definition cart_of_user (db : DB) : list Cart.t := filter owned (cart db).

(** A faulty run against the fault-free run of the same request from
    [db]: it wrote nothing or what the fault-free run writes; if it returned,
    or raised an [HTTPException], it is the fault-free run; and an
    [HTTPException] comes with nothing written. *)
Definition single_commit {A} (db : DB) (faulty clean : DB * outcome A) : Prop :=
  (fst faulty = db \/ fst faulty = fst clean) /\
  (forall a, snd faulty = Returned a -> faulty = clean) /\
  (forall code d, snd faulty = Raised (HTTPException code d) ->
                  faulty = clean /\ fst faulty = db).

(** The upper bound alone. *)
Definition at_most_max (db : DB) : Prop :=
  Forall (fun c => Cart.quantity c <= MAX_QUANTITY) (cart db).

(** The rows of other users, in storage order. *)
Definition carts_of_others (db : DB) : list Cart.t :=
  filter (fun c => negb (owned c)) (cart db).

(** The primary key of the orders table. *)
Definition orders_pk (db : DB) : Prop := NoDup (map Order.id (orders db)).

(** Some cart line points at no product. *)
Definition dangling (db : DB) : Prop :=
  exists c, In c (cart db) /\
            forall p, In p (products db) -> Product.id p <> Cart.product_id c.

(** ** Sample databases *)

Definition fish : Product.t :=
  Product.mk 1 "fish" "" (10 # 1) "" "1 kg" 1.

Definition roe : Product.t :=
  Product.mk 2 "roe" "" (11 # 2) "" "100 g" 1.

(** Two products, nothing else. *)
Definition shop : DB := mkDB [fish; roe] [] [] [] [].

(** User 1 holds fifty fish. *)
Definition one_line : DB :=
  mkDB [fish; roe] [] [] [Cart.mk 1 1 1 50] [].

(** User 1 holds two fish, user 2 one roe and an order. *)
Definition two_users : DB :=
  mkDB [fish; roe] [] []
    [Cart.mk 1 1 1 2; Cart.mk 2 2 2 1]
    [Order.mk 1 2 (5 # 1) "pending" 0].

(** Only user 2 holds anything: three fish. *)
Definition others_cart : DB :=
  mkDB [fish; roe] [] [] [Cart.mk 1 2 1 3] [].

(** User 1 holds two fish and a line for product 9, which is not in the
    catalogue. *)
Definition lost_product : DB :=
  mkDB [fish] [] [] [Cart.mk 1 1 1 2; Cart.mk 2 1 9 1] [].

(** * Properties *)

(** ** List and key facts *)

Lemma next_id_above (ids : list Z) (x : Z) :
  In x ids -> x < next_id ids.
Proof.
  unfold next_id. induction ids as [|y ys IH]; cbn [fold_right In]; [tauto|].
  intros [->|Hin]; [lia|]. specialize (IH Hin). lia.
Qed.

Lemma find_nothing {A} (p : A -> bool) (l : list A) :
  (forall x, In x l -> p x = false) -> find p l = None.
Proof.
  induction l as [|a l IH]; cbn [find]; [reflexivity|].
  intros H. rewrite (H a (or_introl eq_refl)). apply IH.
  intros x Hx. apply H. now right.
Qed.

Lemma find_snoc {A} (p : A -> bool) (l : list A) (x : A) :
  find p (l ++ [x]) =
  match find p l with
  | Some y => Some y
  | None => if p x then Some x else None
  end.
Proof.
  induction l as [|a l IH]; simpl; [reflexivity|].
  destruct (p a); [reflexivity|exact IH].
Qed.

(** A predicate that does not read [quantity] finds the same row, updated,
    after an UPDATE of [quantity] by primary key. *)
Lemma find_update_quantity (p : Cart.t -> bool) (pk q : Z) (l : list Cart.t) :
  (forall c q', p (Cart.set_quantity q' c) = p c) ->
  find p (map (fun c => if Cart.id c =? pk then Cart.set_quantity q c else c) l)
  = option_map (fun c => if Cart.id c =? pk then Cart.set_quantity q c else c)
      (find p l).
Proof.
  intros Hp. induction l as [|a l IH]; cbn [map find]; [reflexivity|].
  destruct (Cart.id a =? pk) eqn:E; [rewrite Hp|];
    destruct (p a); cbn [option_map]; rewrite ?E; auto.
Qed.

Lemma owned_id_set_quantity (cart_id : Z) (c : Cart.t) (q : Z) :
  owned_id cart_id (Cart.set_quantity q c) = owned_id cart_id c.
Proof. reflexivity. Qed.

Lemma owned_product_set_quantity (pid : Z) (c : Cart.t) (q : Z) :
  owned_product pid (Cart.set_quantity q c) = owned_product pid c.
Proof. reflexivity. Qed.

Lemma owned_id_true (cart_id : Z) (c : Cart.t) :
  owned_id cart_id c = true <-> Cart.id c = cart_id /\ Cart.user_id c = user_id.
Proof.
  unfold owned_id. rewrite andb_true_iff, !Z.eqb_eq. tauto.
Qed.

Lemma owned_product_true (pid : Z) (c : Cart.t) :
  owned_product pid c = true <->
  Cart.user_id c = user_id /\ Cart.product_id c = pid.
Proof.
  unfold owned_product. rewrite andb_true_iff, !Z.eqb_eq. tauto.
Qed.

(** ** Tactics for running a request *)

Ltac unfold_session :=
  unfold run, add_to_cart, update_cart_quantity, remove_from_cart, get_cart,
    get_cart_count, get_orders, query_Product_first, query_Cart_first,
    query_Cart_all, query_Cart_count, query_Order_all, query_Cart_delete,
    add_Cart, add_Order, update_Cart_quantity, delete_Cart, refresh_Cart,
    refresh_Order, commit, db_call, get_pending, put_pending, bind, ret,
    raise, no_faults;
  cbn [committed pending ncalls fst snd].

Ltac case_guard :=
  match goal with
  | |- context [if ?b then _ else _] => destruct b eqn:?
  | |- context [match find ?p ?l with _ => _ end] => destruct (find p l) eqn:?
  end; cbn [committed pending ncalls fst snd].

(** ** Bounds are checked before anything is looked up *)

Lemma add_to_cart_over_max (fails : nat -> bool) (db : DB) (pid q : Z) :
  q > MAX_QUANTITY ->
  run (add_to_cart fails pid q) db
  = (db, Raised (HTTPException 400 QuantityOverMax)).
Proof.
  intros Hq. unfold_session.
  destruct (Z.gtb_spec q MAX_QUANTITY); [reflexivity|lia].
Qed.

Lemma update_cart_quantity_out_of_range
  (fails : nat -> bool) (db : DB) (cart_id q : Z) :
  q < 1 \/ q > MAX_QUANTITY ->
  exists d,
    run (update_cart_quantity fails cart_id q) db
    = (db, Raised (HTTPException 400 d)).
Proof.
  intros Hq. unfold_session.
  destruct (Z.ltb_spec q 1); [eexists; reflexivity|].
  destruct (Z.gtb_spec q MAX_QUANTITY); [eexists; reflexivity|lia].
Qed.

(** C9: a quantity out of bounds is answered with a 400 whatever the
    database holds and whichever round trip would have failed, so also when
    the product of an AddItem does not exist and when the cart line of an
    UpdateQuantity is missing or not the user's; the database is left as it
    was. *)
Theorem quantity_validation_precedes_existence
  (fails : nat -> bool) (db : DB) (product_id cart_id quantity : Z) :
  (quantity > MAX_QUANTITY ->
   fst (run (add_to_cart fails product_id quantity) db) = db /\
   ValidationError (snd (run (add_to_cart fails product_id quantity) db)) /\
   ~ NotFoundError (snd (run (add_to_cart fails product_id quantity) db)))
  /\
  (quantity < 1 \/ quantity > MAX_QUANTITY ->
   fst (run (update_cart_quantity fails cart_id quantity) db) = db /\
   ValidationError (snd (run (update_cart_quantity fails cart_id quantity) db)) /\
   ~ NotFoundError (snd (run (update_cart_quantity fails cart_id quantity) db))).
Proof.
  split; intros Hq.
  - rewrite (add_to_cart_over_max fails db product_id quantity Hq).
    repeat split; [eexists; reflexivity|]. intros [d Hd]. discriminate.
  - destruct (update_cart_quantity_out_of_range fails db cart_id quantity Hq)
      as [d ->].
    repeat split; [eexists; reflexivity|]. intros [d' Hd]. discriminate.
Qed.

(** A product that is not in the catalogue, a cart line that is not in the
    cart: the answers are 400s all the same. *)
Lemma quantity_validation_precedes_existence_witness :
  find (fun p => Product.id p =? 7) (products shop) = None /\
  find (owned_id 5) (cart shop) = None /\
  ValidationError (snd (run (add_to_cart no_faults 7 100) shop)) /\
  ValidationError (snd (run (update_cart_quantity no_faults 5 0) shop)).
Proof.
  split; [reflexivity|]. split; [reflexivity|].
  pose proof (quantity_validation_precedes_existence no_faults shop 7 5 100)
    as [Hadd _].
  pose proof (quantity_validation_precedes_existence no_faults shop 7 5 0)
    as [_ Hupd].
  split.
  - apply Hadd. unfold MAX_QUANTITY. lia.
  - apply Hupd. left. lia.
Defined.

(** ** What the cart endpoints leave behind *)

Lemma find_id_of_member (e : Cart.t) (l : list Cart.t) :
  In e l ->
  exists c, find (fun c => Cart.id c =? Cart.id e) l = Some c /\
            Cart.id c = Cart.id e.
Proof.
  intros Hin.
  destruct (find (fun c => Cart.id c =? Cart.id e) l) as [c|] eqn:F.
  - exists c. split; [reflexivity|].
    apply find_some in F. now apply Z.eqb_eq.
  - apply find_none with (x := e) in F; [|exact Hin].
    rewrite Z.eqb_refl in F. discriminate.
Qed.

(** Whatever fails, a cart endpoint leaves the database either as it found
    it or as its fault-free run leaves it. *)
Lemma add_to_cart_persisted (fails : nat -> bool) (db : DB) (pid q : Z) :
  fst (run (add_to_cart fails pid q) db) = db \/
  fst (run (add_to_cart fails pid q) db)
  = fst (run (add_to_cart no_faults pid q) db).
Proof.
  unfold_session. repeat case_guard; auto.
Qed.

Lemma update_cart_quantity_persisted
  (fails : nat -> bool) (db : DB) (cart_id q : Z) :
  fst (run (update_cart_quantity fails cart_id q) db) = db \/
  fst (run (update_cart_quantity fails cart_id q) db)
  = fst (run (update_cart_quantity no_faults cart_id q) db).
Proof.
  unfold_session. repeat case_guard; auto.
Qed.

Lemma remove_from_cart_persisted (fails : nat -> bool) (db : DB) (cart_id : Z) :
  fst (run (remove_from_cart fails cart_id) db) = db \/
  fst (run (remove_from_cart fails cart_id) db)
  = fst (run (remove_from_cart no_faults cart_id) db).
Proof.
  unfold_session. repeat case_guard; auto.
Qed.

Lemma add_to_cart_run (db : DB) (pid q : Z) :
  run (add_to_cart no_faults pid q) db =
  if q >? MAX_QUANTITY then (db, Raised (HTTPException 400 QuantityOverMax))
  else
    match find (fun p => Product.id p =? pid) (products db) with
    | None => (db, Raised (HTTPException 404 ProductNotFound))
    | Some _ =>
        match find (owned_product pid) (cart db) with
        | Some e =>
            if Cart.quantity e + q >? MAX_QUANTITY
            then (db, Raised (HTTPException 400 TotalQuantityOverMax))
            else
              let db' :=
                with_cart db
                  (map (update_row (Cart.id e) (Cart.quantity e + q)) (cart db))
              in (db', refreshed (Cart.id e) db')
        | None =>
            let pk := next_id (map Cart.id (cart db)) in
            let db' := with_cart db (cart db ++ [Cart.mk pk user_id pid q]) in
            (db', refreshed pk db')
        end
    end.
Proof.
  unfold_session. unfold refreshed, update_row.
  repeat case_guard; cbn [cart with_cart] in *; try reflexivity; congruence.
Qed.

Lemma update_cart_quantity_run (db : DB) (cart_id q : Z) :
  run (update_cart_quantity no_faults cart_id q) db =
  if q <? 1 then (db, Raised (HTTPException 400 QuantityBelowOne))
  else if q >? MAX_QUANTITY
  then (db, Raised (HTTPException 400 QuantityOverMax))
  else
    match find (owned_id cart_id) (cart db) with
    | None => (db, Raised (HTTPException 404 CartItemNotFound))
    | Some e =>
        let db' := with_cart db (map (update_row (Cart.id e) q) (cart db)) in
        (db', refreshed (Cart.id e) db')
    end.
Proof.
  unfold_session. unfold refreshed, update_row.
  repeat case_guard; cbn [cart with_cart] in *; try reflexivity; congruence.
Qed.

Lemma remove_from_cart_run (db : DB) (cart_id : Z) :
  run (remove_from_cart no_faults cart_id) db =
  match find (owned_id cart_id) (cart db) with
  | None => (db, Raised (HTTPException 404 CartItemNotFound))
  | Some e =>
      (with_cart db (filter (fun c => negb (Cart.id c =? Cart.id e)) (cart db)),
       Returned tt)
  end.
Proof.
  unfold_session. repeat case_guard; reflexivity.
Qed.

(** After an UPDATE by the key of a row of the table, [db.refresh] finds a
    row with the new quantity. *)
Lemma refreshed_after_update (db : DB) (e : Cart.t) (q : Z) :
  In e (cart db) ->
  exists c,
    refreshed (Cart.id e)
      (with_cart db (map (update_row (Cart.id e) q) (cart db)))
    = Returned (Cart.set_quantity q c) /\
    In c (cart db) /\ Cart.id c = Cart.id e.
Proof.
  intros Hin. destruct (find_id_of_member e (cart db) Hin) as (c & F & Hid).
  exists c. unfold refreshed, update_row. cbn [cart with_cart].
  rewrite (find_update_quantity (fun c => Cart.id c =? Cart.id e)
             (Cart.id e) q (cart db)) by reflexivity.
  rewrite F. cbn [option_map]. split; [|split; [|exact Hid]].
  - now rewrite Hid, Z.eqb_refl.
  - now apply find_some in F.
Qed.

(** ** UpdateQuantity *)

Lemma find_owned_id_none (db : DB) (cart_id : Z) :
  (forall c, In c (cart db) ->
             ~ (Cart.id c = cart_id /\ Cart.user_id c = user_id)) ->
  find (owned_id cart_id) (cart db) = None.
Proof.
  intros H. apply find_nothing. intros c Hc.
  destruct (owned_id cart_id c) eqn:E; [|reflexivity].
  apply owned_id_true in E. now apply H in Hc.
Qed.

Lemma find_owned_id_some (db : DB) (cart_id : Z) (e : Cart.t) :
  In e (cart db) -> Cart.id e = cart_id -> Cart.user_id e = user_id ->
  exists e0, find (owned_id cart_id) (cart db) = Some e0 /\
             In e0 (cart db) /\ Cart.id e0 = cart_id.
Proof.
  intros Hin Hid Hu.
  destruct (find (owned_id cart_id) (cart db)) as [e0|] eqn:F.
  - exists e0. apply find_some in F. destruct F as [Hin0 Ho].
    apply owned_id_true in Ho. tauto.
  - apply find_none with (x := e) in F; [|exact Hin].
    assert (owned_id cart_id e = true) by now apply owned_id_true.
    congruence.
Qed.

(** C7: UpdateQuantity answers 400 for a quantity below 1 or above 99 (so
    for 0 and for 100), whatever the database and the faults; for a quantity
    in [1, 99] and no fault it answers 404 when no cart line with that id
    belongs to the user, and otherwise returns a line with the given
    quantity, after which every stored line with that id, the user's among
    them, holds exactly the given quantity. *)
Theorem update_cart_quantity_spec
  (fails : nat -> bool) (db : DB) (cart_id quantity : Z) :
  (quantity < 1 \/ quantity > 99 ->
   fst (run (update_cart_quantity fails cart_id quantity) db) = db /\
   ValidationError (snd (run (update_cart_quantity fails cart_id quantity) db)))
  /\
  (1 <= quantity <= 99 ->
   (forall c, In c (cart db) ->
              ~ (Cart.id c = cart_id /\ Cart.user_id c = user_id)) ->
   fst (run (update_cart_quantity no_faults cart_id quantity) db) = db /\
   NotFoundError (snd (run (update_cart_quantity no_faults cart_id quantity) db)))
  /\
  (1 <= quantity <= 99 ->
   forall e, In e (cart db) -> Cart.id e = cart_id -> Cart.user_id e = user_id ->
   let db' := fst (run (update_cart_quantity no_faults cart_id quantity) db) in
   (exists row,
      snd (run (update_cart_quantity no_faults cart_id quantity) db)
      = Returned row /\
      Cart.id row = cart_id /\ Cart.quantity row = quantity) /\
   In (Cart.set_quantity quantity e) (cart db') /\
   (forall c, In c (cart db') -> Cart.id c = cart_id ->
              Cart.quantity c = quantity)).
Proof.
  split; [|split].
  - intros Hq.
    destruct (update_cart_quantity_out_of_range fails db cart_id quantity)
      as [d ->]; [unfold MAX_QUANTITY; lia|].
    split; [reflexivity|]. now exists d.
  - intros Hq Hnone. rewrite update_cart_quantity_run.
    destruct (Z.ltb_spec quantity 1); [lia|].
    destruct (Z.gtb_spec quantity MAX_QUANTITY); [unfold MAX_QUANTITY in *; lia|].
    rewrite (find_owned_id_none db cart_id Hnone).
    split; [reflexivity|]. eexists; reflexivity.
  - intros Hq e Hin Hid Hu. rewrite update_cart_quantity_run.
    destruct (Z.ltb_spec quantity 1); [lia|].
    destruct (Z.gtb_spec quantity MAX_QUANTITY); [unfold MAX_QUANTITY in *; lia|].
    destruct (find_owned_id_some db cart_id e Hin Hid Hu) as (e0 & -> & Hin0 & Hid0).
    cbn [fst snd cart with_cart]. rewrite Hid0. split; [|split].
    + rewrite <- Hid0.
      destruct (refreshed_after_update db e0 quantity Hin0) as (c & -> & _ & Hc).
      exists (Cart.set_quantity quantity c). now rewrite <- Hc.
    + apply in_map_iff. exists e. split; [|exact Hin].
      unfold update_row. now rewrite Hid, Z.eqb_refl.
    + intros c Hc Hcid. apply in_map_iff in Hc. destruct Hc as (c0 & <- & _).
      unfold update_row in *. destruct (Cart.id c0 =? cart_id) eqn:E.
      * reflexivity.
      * apply Z.eqb_neq in E. contradiction.
Qed.

(** Quantities 0 and 100 are refused, line 9 is not there, and line 1 goes
    from 50 to 7. *)
Lemma update_cart_quantity_spec_witness :
  ValidationError (snd (run (update_cart_quantity no_faults 1 0) one_line)) /\
  ValidationError (snd (run (update_cart_quantity no_faults 1 100) one_line)) /\
  NotFoundError (snd (run (update_cart_quantity no_faults 9 7) one_line)) /\
  In (Cart.mk 1 1 1 7)
     (cart (fst (run (update_cart_quantity no_faults 1 7) one_line))).
Proof.
  split; [|split; [|split]].
  - apply (update_cart_quantity_spec no_faults one_line 1 0). left. lia.
  - apply (update_cart_quantity_spec no_faults one_line 1 100). right. lia.
  - apply (update_cart_quantity_spec no_faults one_line 9 7); [lia|].
    intros c [<-|[]] [H _]. discriminate H.
  - apply (proj2 (proj2 (update_cart_quantity_spec no_faults one_line 1 7))
             ltac:(lia) (Cart.mk 1 1 1 50));
      [left; reflexivity|reflexivity|reflexivity].
Defined.

(** ** AddItem *)

Lemma find_id_fresh (l : list Cart.t) :
  find (fun c => Cart.id c =? next_id (map Cart.id l)) l = None.
Proof.
  apply find_nothing. intros c Hc. apply Z.eqb_neq.
  pose proof (next_id_above (map Cart.id l) (Cart.id c) (in_map _ _ _ Hc)). lia.
Qed.

Lemma map_update_fresh (l : list Cart.t) (q : Z) :
  map (update_row (next_id (map Cart.id l)) q) l = l.
Proof.
  rewrite <- (map_id l) at 3. apply map_ext_in. intros c Hc.
  unfold update_row.
  pose proof (next_id_above (map Cart.id l) (Cart.id c) (in_map _ _ _ Hc)).
  destruct (Z.eqb_spec (Cart.id c) (next_id (map Cart.id l))); [lia|reflexivity].
Qed.

Lemma filter_nothing {A} (p : A -> bool) (l : list A) :
  (forall x, In x l -> p x = false) -> filter p l = [].
Proof.
  induction l as [|a l IH]; cbn [filter]; [reflexivity|].
  intros H. rewrite (H a (or_introl eq_refl)). apply IH.
  intros x Hx. apply H. now right.
Qed.

Lemma find_product_some (db : DB) (pid : Z) :
  (exists p, In p (products db) /\ Product.id p = pid) ->
  exists p, find (fun p => Product.id p =? pid) (products db) = Some p.
Proof.
  intros (p & Hin & Hid).
  destruct (find (fun p => Product.id p =? pid) (products db)) as [p0|] eqn:F.
  - now exists p0.
  - apply find_none with (x := p) in F; [|exact Hin].
    apply Z.eqb_neq in F. contradiction.
Qed.

Lemma owned_product_none (l : list Cart.t) (pid : Z) :
  (forall c, In c l ->
             ~ (Cart.user_id c = user_id /\ Cart.product_id c = pid)) ->
  forall c, In c l -> owned_product pid c = false.
Proof.
  intros H c Hc. destruct (owned_product pid c) eqn:E; [|reflexivity].
  apply owned_product_true in E. now apply H in Hc.
Qed.

Lemma update_snoc_fresh (l : list Cart.t) (u p q q' : Z) :
  let pk := next_id (map Cart.id l) in
  map (update_row pk q') (l ++ [Cart.mk pk u p q]) = l ++ [Cart.mk pk u p q'].
Proof.
  intros pk. subst pk. rewrite map_app, map_update_fresh.
  cbn [map]. unfold update_row. cbn [Cart.id].
  now rewrite Z.eqb_refl.
Qed.

(** The first add of a product: a new line is appended. *)
Lemma add_to_cart_new (db : DB) (pid q : Z) :
  q <= MAX_QUANTITY ->
  (exists p, In p (products db) /\ Product.id p = pid) ->
  (forall c, In c (cart db) ->
             ~ (Cart.user_id c = user_id /\ Cart.product_id c = pid)) ->
  let line := Cart.mk (next_id (map Cart.id (cart db))) user_id pid q in
  run (add_to_cart no_faults pid q) db
  = (with_cart db (cart db ++ [line]), Returned line).
Proof.
  intros Hq Hp Hnone line. rewrite add_to_cart_run.
  destruct (Z.gtb_spec q MAX_QUANTITY); [lia|].
  destruct (find_product_some db pid Hp) as [p ->].
  rewrite (find_nothing _ _ (owned_product_none _ _ Hnone)).
  cbv zeta. unfold refreshed. cbn [cart with_cart].
  rewrite find_snoc, find_id_fresh. cbn [Cart.id].
  now rewrite Z.eqb_refl.
Qed.

(** The next add of the same product, when the new line is the user's
    only one for it: the line is updated in place. *)
Lemma add_to_cart_again (db : DB) (pid q1 q : Z) :
  q <= MAX_QUANTITY -> q1 + q <= MAX_QUANTITY ->
  (exists p, In p (products db) /\ Product.id p = pid) ->
  (forall c, In c (cart db) ->
             ~ (Cart.user_id c = user_id /\ Cart.product_id c = pid)) ->
  let pk := next_id (map Cart.id (cart db)) in
  run (add_to_cart no_faults pid q)
      (with_cart db (cart db ++ [Cart.mk pk user_id pid q1]))
  = (with_cart db (cart db ++ [Cart.mk pk user_id pid (q1 + q)]),
     Returned (Cart.mk pk user_id pid (q1 + q))).
Proof.
  intros Hq Hsum Hp Hnone pk. rewrite add_to_cart_run.
  destruct (Z.gtb_spec q MAX_QUANTITY); [lia|].
  cbn [products cart with_cart].
  destruct (find_product_some db pid Hp) as [p ->].
  rewrite find_snoc.
  rewrite (find_nothing _ _ (owned_product_none _ _ Hnone)).
  unfold owned_product at 1. cbn [Cart.user_id Cart.product_id Cart.quantity Cart.id].
  rewrite !Z.eqb_refl.
  cbn [andb Cart.user_id Cart.product_id Cart.quantity Cart.id].
  destruct (Z.gtb_spec (q1 + q) MAX_QUANTITY); [lia|].
  cbv zeta. subst pk. unfold refreshed. rewrite update_snoc_fresh.
  unfold with_cart. cbn [cart products users categories orders].
  rewrite find_snoc, find_id_fresh. cbn [Cart.id].
  now rewrite Z.eqb_refl.
Qed.

(** C5: with 1 <= q1, 1 <= q2 and q1 + q2 <= 99, on a cart with no line
    of the user for an existing product, AddItem of q1 and then AddItem of
    q2 both succeed and leave exactly one line for (user, product), with
    quantity q1 + q2. *)
Theorem add_to_cart_twice_merges (db : DB) (product_id q1 q2 : Z) :
  1 <= q1 -> 1 <= q2 -> q1 + q2 <= 99 ->
  (exists p, In p (products db) /\ Product.id p = product_id) ->
  (forall c, In c (cart db) ->
             ~ (Cart.user_id c = user_id /\ Cart.product_id c = product_id)) ->
  let db1 := fst (run (add_to_cart no_faults product_id q1) db) in
  let db2 := fst (run (add_to_cart no_faults product_id q2) db1) in
  exists pk,
    snd (run (add_to_cart no_faults product_id q1) db)
    = Returned (Cart.mk pk user_id product_id q1) /\
    snd (run (add_to_cart no_faults product_id q2) db1)
    = Returned (Cart.mk pk user_id product_id (q1 + q2)) /\
    filter (owned_product product_id) (cart db2)
    = [Cart.mk pk user_id product_id (q1 + q2)].
Proof.
  intros H1 H2 Hsum Hp Hnone db1 db2. subst db2 db1.
  exists (next_id (map Cart.id (cart db))).
  rewrite (add_to_cart_new db product_id q1)
    by (unfold MAX_QUANTITY; auto; lia).
  cbn [fst snd]. split; [reflexivity|].
  rewrite (add_to_cart_again db product_id q1 q2)
    by (unfold MAX_QUANTITY; auto; lia).
  cbn [fst snd cart with_cart]. split; [reflexivity|].
  rewrite filter_app, (filter_nothing _ _ (owned_product_none _ _ Hnone)).
  cbn [filter app]. unfold owned_product.
  cbn [Cart.user_id Cart.product_id]. now rewrite !Z.eqb_refl.
Qed.

(** 50 of the fish and then 49 more: one line of 99. *)
Lemma add_to_cart_twice_merges_witness :
  exists pk,
    filter (owned_product 1)
      (cart (fst (run (add_to_cart no_faults 1 49)
                    (fst (run (add_to_cart no_faults 1 50) shop)))))
    = [Cart.mk pk user_id 1 99].
Proof.
  destruct (add_to_cart_twice_merges shop 1 50 49) as (pk & _ & _ & H);
    [lia|lia|lia| |intros c []|].
  - exists fish. split; [left; reflexivity|reflexivity].
  - exists pk. exact H.
Defined.

(** C6: with q1 + q2 > 99, once AddItem of q1 has succeeded and stored
    quantity q1 on the line, AddItem of q2 for the same product answers
    400 and leaves the database as it was: the user's line for the product
    still holds q1. *)
Theorem add_to_cart_overflow_rejected
  (db db1 : DB) (product_id q1 q2 : Z) (line : Cart.t) :
  q1 + q2 > 99 ->
  run (add_to_cart no_faults product_id q1) db = (db1, Returned line) ->
  Cart.quantity line = q1 ->
  fst (run (add_to_cart no_faults product_id q2) db1) = db1 /\
  ValidationError (snd (run (add_to_cart no_faults product_id q2) db1)) /\
  exists stored,
    find (owned_product product_id)
      (cart (fst (run (add_to_cart no_faults product_id q2) db1)))
    = Some stored /\
    Cart.quantity stored = q1.
Proof.
  intros Hsum Hrun Hline.
  assert (Hfound : exists p stored,
             find (fun p => Product.id p =? product_id) (products db1) = Some p /\
             find (owned_product product_id) (cart db1) = Some stored /\
             Cart.quantity stored = q1).
  { rewrite add_to_cart_run in Hrun.
    destruct (q1 >? MAX_QUANTITY); [discriminate|].
    destruct (find (fun p => Product.id p =? product_id) (products db))
      as [p|] eqn:Fp; [|discriminate].
    exists p.
    destruct (find (owned_product product_id) (cart db)) as [e|] eqn:Fe.
    - destruct (Cart.quantity e + q1 >? MAX_QUANTITY); [discriminate|].
      cbv zeta in Hrun. injection Hrun as <- Hrow.
      cbn [products cart with_cart].
      exists (Cart.set_quantity (Cart.quantity e + q1) e).
      split; [exact Fp|].
      fold (update_row (Cart.id e) (Cart.quantity e + q1)).
      unfold update_row at 1.
      rewrite (find_update_quantity (owned_product product_id))
        by reflexivity.
      rewrite Fe. cbn [option_map]. rewrite Z.eqb_refl.
      split; [reflexivity|].
      pose proof Fe as Hin. apply find_some in Hin. destruct Hin as [Hin _].
      destruct (refreshed_after_update db e (Cart.quantity e + q1) Hin)
        as (c & Hc & _).
      rewrite Hc in Hrow. injection Hrow as <-. exact Hline.
    - cbv zeta in Hrun. injection Hrun as <- Hrow.
      cbn [products cart with_cart]. eexists. split; [exact Fp|].
      rewrite find_snoc, Fe. unfold owned_product at 1.
      cbn [Cart.user_id Cart.product_id]. rewrite !Z.eqb_refl. cbn [andb].
      split; reflexivity. }
  destruct Hfound as (p & stored & Fp & Fs & Hq).
  assert (Hrun2 : exists d,
             run (add_to_cart no_faults product_id q2) db1
             = (db1, Raised (HTTPException 400 d))).
  { rewrite add_to_cart_run.
    destruct (q2 >? MAX_QUANTITY); [eexists; reflexivity|].
    rewrite Fp, Fs.
    destruct (Z.gtb_spec (Cart.quantity stored + q2) MAX_QUANTITY);
      [eexists; reflexivity|unfold MAX_QUANTITY in *; lia]. }
  destruct Hrun2 as [d ->]. cbn [fst snd].
  split; [reflexivity|]. split; [now exists d|].
  exists stored. now split.
Qed.

(** 50 of the fish, then 60 more: refused, and the line keeps its 50. *)
Lemma add_to_cart_overflow_rejected_witness :
  ValidationError
    (snd (run (add_to_cart no_faults 1 60)
            (fst (run (add_to_cart no_faults 1 50) shop)))) /\
  fst (run (add_to_cart no_faults 1 60)
         (fst (run (add_to_cart no_faults 1 50) shop)))
  = fst (run (add_to_cart no_faults 1 50) shop) /\
  cart (fst (run (add_to_cart no_faults 1 50) shop)) = [Cart.mk 1 1 1 50].
Proof.
  destruct (add_to_cart_overflow_rejected shop
              (fst (run (add_to_cart no_faults 1 50) shop))
              1 50 60 (Cart.mk 1 1 1 50))
    as (Hdb & Herr & _); [lia|reflexivity|reflexivity|].
  split; [exact Herr|]. split; [exact Hdb|reflexivity].
Defined.

(** ** Checkout *)

(** Summing the prices only reads: it makes round trips and may raise, but
    leaves the session's databases alone. *)
Lemma sum_prices_session
  (fails : nat -> bool) (items : list Cart.t) (acc : Q) (s : Session) :
  exists n r,
    sum_prices fails items acc s = (mkSession (committed s) (pending s) n, r).
Proof.
  revert acc s. induction items as [|item rest IH]; intros acc s.
  - exists (ncalls s), (Returned acc). now destruct s.
  - cbn [sum_prices]. unfold Cart_product. unfold_session.
    destruct (fails (ncalls s)); [eauto|].
    cbn [committed pending ncalls].
    match goal with
    | |- context [find ?f (products (pending s))] =>
        destruct (find f (products (pending s))) as [p|]; [|eauto]
    end.
    match goal with
    | |- context [sum_prices fails rest ?a ?s'] =>
        destruct (IH a s') as (n & r & ->)
    end.
    cbn [committed pending]. eauto.
Qed.

Lemma sum_prices_no_faults (items : list Cart.t) (acc : Q) (s : Session) :
  exists n,
    sum_prices no_faults items acc s
    = (mkSession (committed s) (pending s) n,
       match total_of (products (pending s)) items acc with
       | Some t => Returned t
       | None => Raised AttributeError
       end).
Proof.
  revert acc s. induction items as [|item rest IH]; intros acc s.
  - exists (ncalls s). now destruct s.
  - cbn [sum_prices total_of]. unfold Cart_product. unfold_session.
    destruct (find (fun p => Product.id p =? Cart.product_id item)
                (products (pending s))) as [p|]; [|eauto].
    match goal with
    | |- context [sum_prices _ rest ?a ?s'] =>
        destruct (IH a s') as (n & E)
    end.
    unfold no_faults in E. rewrite E. cbn [committed pending]. eauto.
Qed.

Lemma filter_all {A} (l : list A) : filter (fun _ => true) l = l.
Proof.
  induction l as [|a l IH]; cbn [filter]; [reflexivity|now rewrite IH].
Qed.

Lemma find_order_fresh (l : list Order.t) (o : Order.t) :
  Order.id o = next_id (map Order.id l) ->
  find (fun x => Order.id x =? next_id (map Order.id l)) (l ++ [o]) = Some o.
Proof.
  intros Hid. rewrite find_snoc.
  replace (find _ l) with (@None Order.t).
  - now rewrite Hid, Z.eqb_refl.
  - symmetry. apply find_nothing. intros x Hx. apply Z.eqb_neq.
    pose proof (next_id_above (map Order.id l) (Order.id x) (in_map _ _ _ Hx)).
    lia.
Qed.

Lemma create_order_run (now : Z) (db : DB) :
  run (create_order no_faults now) db =
  match cart db with
  | [] => (db, Raised (HTTPException 400 CartIsEmpty))
  | _ :: _ =>
      match total_of (products db) (cart db) 0%Q with
      | None => (db, Raised AttributeError)
      | Some t =>
          (cart_cleared (order_placed db (new_order now db t)),
           Returned (new_order now db t))
      end
  end.
Proof.
  unfold create_order. unfold_session. rewrite filter_all.
  destruct (cart db) as [|c l] eqn:Ecart; [reflexivity|].
  match goal with
  | |- context [sum_prices _ ?items ?a ?s] =>
      destruct (sum_prices_no_faults items a s) as (n & E)
  end.
  unfold no_faults in E. rewrite E. cbn [committed pending ncalls].
  destruct (total_of (products db) (c :: l) 0%Q) as [t|]; [|reflexivity].
  cbn [orders with_orders].
  fold (new_order now db t).
  rewrite (find_order_fresh (orders db) (new_order now db t)) by reflexivity.
  reflexivity.
Qed.

(** Whatever fails, Checkout ends in one of three ways. *)
Lemma create_order_outcomes (fails : nat -> bool) (now : Z) (db : DB) :
  (exists o,
     run (create_order fails now) db
     = (cart_cleared (order_placed db o), Returned o))
  \/ (exists e, run (create_order fails now) db = (db, Raised e))
  \/ (exists o,
        run (create_order fails now) db
        = (order_placed db o, Raised OperationalError)).
Proof.
  unfold create_order, order_placed, cart_cleared. unfold_session.
  destruct (fails 0%nat); [right; left; eexists; reflexivity|].
  cbn [committed pending ncalls]. rewrite filter_all.
  destruct (cart db) as [|c l] eqn:Ecart; [right; left; eexists; reflexivity|].
  match goal with
  | |- context [sum_prices _ ?items ?a ?s] =>
      destruct (sum_prices_session fails items a s) as (n & r & E)
  end.
  rewrite E. cbn [committed pending ncalls].
  destruct r as [t|e]; [|right; left; eexists; reflexivity].
  destruct (fails n); [right; left; eexists; reflexivity|].
  cbn [committed pending ncalls].
  destruct (fails (S n)); [right; right; eexists; reflexivity|].
  cbn [committed pending ncalls orders with_orders].
  fold (new_order now db t).
  rewrite (find_order_fresh (orders db) (new_order now db t)) by reflexivity.
  cbn [committed pending ncalls].
  destruct (fails (S (S n))); [right; right; eexists; reflexivity|].
  cbn [committed pending ncalls].
  destruct (fails (S (S (S n)))); [right; right; eexists; reflexivity|].
  left. eexists. reflexivity.
Qed.

(** C1, as stated, fails: when the DELETE raises, the order is already
    committed and stays, and the cart keeps its line. *)
Lemma checkout_not_atomic :
  run (create_order delete_fails 0) one_line
  = (mkDB [fish; roe] [] [] [Cart.mk 1 1 1 50]
       [Order.mk 1 1 (0 + (10 # 1) * inject_Z 50)%Q "pending" 0],
     Raised OperationalError)
  /\ ~ all_or_nothing delete_fails 0 one_line.
Proof.
  assert (E : run (create_order delete_fails 0) one_line
              = (mkDB [fish; roe] [] [] [Cart.mk 1 1 1 50]
                   [Order.mk 1 1 (0 + (10 # 1) * inject_Z 50)%Q "pending" 0],
                 Raised OperationalError)) by reflexivity.
  split; [exact E|].
  unfold all_or_nothing. rewrite E. cbn [fst orders cart one_line app].
  intros [(o & _ & H)|[H _]]; discriminate H.
Qed.

(** C1, amended: whatever fails, Checkout ends in one of three ways.  It
    returns the order, which is the one new row of the Order store, and the
    Cart store is empty; or it raises and the database is as it was; or it
    raises on a round trip after the commit of the order, and then the order
    is the one new row of the Order store and the Cart store is as it
    was.  Nothing else in the database changes. *)
Theorem checkout_outcomes (fails : nat -> bool) (now : Z) (db : DB) :
  let db' := fst (run (create_order fails now) db) in
  let r := snd (run (create_order fails now) db) in
  (exists o, r = Returned o /\ db' = cart_cleared (order_placed db o))
  \/ (exists e, r = Raised e /\ db' = db)
  \/ (exists o, r = Raised OperationalError /\ db' = order_placed db o).
Proof.
  cbv zeta.
  destruct (create_order_outcomes fails now db)
    as [(o & ->)|[(e & ->)|(o & ->)]]; cbn [fst snd]; eauto.
Qed.

(** ** The quantity invariant *)

Lemma valid_admitted (c : CartItemCreate.t) :
  CartItemCreate.valid c = true ->
  admitted (AddItem (CartItemCreate.product_id c) (CartItemCreate.quantity c)).
Proof.
  unfold CartItemCreate.valid. rewrite !andb_true_iff, !Z.ltb_lt.
  cbn [admitted]. lia.
Qed.

Lemma Forall_update_row (pk q : Z) (l : list Cart.t) :
  1 <= q <= 99 ->
  Forall quantity_in_range l ->
  Forall quantity_in_range (map (update_row pk q) l).
Proof.
  intros Hq H. apply Forall_map. eapply Forall_impl; [|exact H].
  intros c Hc. unfold update_row.
  destruct (Cart.id c =? pk); [exact Hq|exact Hc].
Qed.

Lemma Forall_filter {A} (P : A -> Prop) (p : A -> bool) (l : list A) :
  Forall P l -> Forall P (filter p l).
Proof.
  intros H. apply Forall_forall. intros x Hx. apply filter_In in Hx.
  rewrite Forall_forall in H. now apply H.
Qed.

Lemma add_to_cart_inv (db : DB) (pid q : Z) :
  1 <= q -> cart_inv db ->
  cart_inv (fst (run (add_to_cart no_faults pid q) db)).
Proof.
  intros Hq Hinv. rewrite add_to_cart_run.
  destruct (Z.gtb_spec q MAX_QUANTITY); [exact Hinv|].
  destruct (find _ (products db)); [|exact Hinv].
  destruct (find (owned_product pid) (cart db)) as [e|] eqn:Fe.
  - destruct (Z.gtb_spec (Cart.quantity e + q) MAX_QUANTITY); [exact Hinv|].
    cbv zeta. cbn [fst]. unfold cart_inv. cbn [cart with_cart].
    apply Forall_update_row; [|exact Hinv].
    apply find_some in Fe. destruct Fe as [Hin _].
    unfold cart_inv in Hinv. rewrite Forall_forall in Hinv.
    specialize (Hinv e Hin). unfold quantity_in_range, MAX_QUANTITY in *. lia.
  - cbv zeta. cbn [fst]. unfold cart_inv. cbn [cart with_cart].
    apply Forall_app. split; [exact Hinv|].
    constructor; [|constructor].
    unfold quantity_in_range, MAX_QUANTITY in *. cbn [Cart.quantity]. lia.
Qed.

Lemma update_cart_quantity_inv (db : DB) (cart_id q : Z) :
  cart_inv db ->
  cart_inv (fst (run (update_cart_quantity no_faults cart_id q) db)).
Proof.
  intros Hinv. rewrite update_cart_quantity_run.
  destruct (Z.ltb_spec q 1); [exact Hinv|].
  destruct (Z.gtb_spec q MAX_QUANTITY); [exact Hinv|].
  destruct (find (owned_id cart_id) (cart db)) as [e|]; [|exact Hinv].
  cbv zeta. cbn [fst]. unfold cart_inv. cbn [cart with_cart].
  apply Forall_update_row; [unfold MAX_QUANTITY in *; lia|exact Hinv].
Qed.

Lemma remove_from_cart_inv (db : DB) (cart_id : Z) :
  cart_inv db ->
  cart_inv (fst (run (remove_from_cart no_faults cart_id) db)).
Proof.
  intros Hinv. rewrite remove_from_cart_run.
  destruct (find (owned_id cart_id) (cart db)) as [e|]; [|exact Hinv].
  cbn [fst]. unfold cart_inv. cbn [cart with_cart].
  now apply Forall_filter.
Qed.

Lemma create_order_inv (fails : nat -> bool) (now : Z) (db : DB) :
  cart_inv db -> cart_inv (fst (run (create_order fails now) db)).
Proof.
  intros Hinv.
  destruct (create_order_outcomes fails now db)
    as [(o & ->)|[(e & ->)|(o & ->)]]; cbn [fst]; try exact Hinv.
  constructor.
Qed.

(** C2, as stated, fails: the core accepts an AddItem of quantity 0 and
    stores a line of quantity 0. *)
Lemma add_to_cart_stores_zero :
  cart_inv shop /\
  serve no_faults 0 (AddItem 1 0) shop
  = mkDB [fish; roe] [] [] [Cart.mk 1 1 1 0] [] /\
  ~ cart_inv (serve no_faults 0 (AddItem 1 0) shop).
Proof.
  split; [constructor|]. split; [reflexivity|].
  intros H. inversion H as [|c l Hc _]. subst.
  unfold quantity_in_range in Hc. cbn [Cart.quantity] in Hc. lia.
Qed.

Lemma serve_inv (fails : nat -> bool) (now : Z) (r : request) (db : DB) :
  admitted r -> cart_inv db -> cart_inv (serve fails now r db).
Proof.
  intros Hadm Hinv. destruct r as [pid q|cid q|cid|]; cbn [serve admitted] in *.
  - destruct (add_to_cart_persisted fails db pid q) as [->| ->];
      [exact Hinv|now apply add_to_cart_inv].
  - destruct (update_cart_quantity_persisted fails db cid q) as [->| ->];
      [exact Hinv|now apply update_cart_quantity_inv].
  - destruct (remove_from_cart_persisted fails db cid) as [->| ->];
      [exact Hinv|now apply remove_from_cart_inv].
  - now apply create_order_inv.
Qed.

Lemma serve_all_inv (rs : list ((nat -> bool) * Z * request)) (db : DB) :
  Forall (fun x => admitted (snd x)) rs ->
  cart_inv db -> cart_inv (serve_all rs db).
Proof.
  revert db. induction rs as [|[[fails now] r] rest IH]; intros db Hadm Hinv.
  - exact Hinv.
  - inversion Hadm as [|x l Hr Hrest]; subst. cbn [serve_all].
    apply IH; [exact Hrest|]. now apply serve_inv.
Qed.

(** C2, amended: from a state where all stored quantities are in [1, 99],
    every operation gives such a state again, whatever fails, for every
    integer quantity given to UpdateQuantity and every quantity of at least
    1 given to AddItem; and so does every sequence of such operations. *)
Theorem quantity_invariant_preserved (db : DB) :
  cart_inv db ->
  (forall fails now r, admitted r -> cart_inv (serve fails now r db)) /\
  (forall rs, Forall (fun x => admitted (snd x)) rs ->
              cart_inv (serve_all rs db)).
Proof.
  intros Hinv. split.
  - intros fails now r Hadm. now apply serve_inv.
  - intros rs Hadm. now apply serve_all_inv.
Qed.

(** One more fish onto a line of 50, and then the Checkout. *)
Lemma quantity_invariant_preserved_witness :
  cart_inv one_line /\
  cart_inv (serve no_faults 0 (AddItem 1 1) one_line) /\
  cart_inv (serve_all [(no_faults, 0, AddItem 1 1); (no_faults, 0, Checkout)]
              one_line).
Proof.
  assert (Hinv : cart_inv one_line).
  { constructor; [|constructor].
    unfold quantity_in_range. cbn [Cart.quantity]. lia. }
  destruct (quantity_invariant_preserved one_line Hinv) as [Hstep Hall].
  split; [exact Hinv|]. split.
  - apply Hstep. cbn [admitted]. lia.
  - apply Hall. constructor; [cbn [snd admitted]; lia|].
    constructor; [exact I|constructor].
Defined.

(** ** Frame *)

Lemma frame_refl (target : Cart.t -> bool) (db : DB) : frame target db db.
Proof. repeat split. Qed.

Lemma frame_with_cart (target : Cart.t -> bool) (db : DB) (l : list Cart.t) :
  untouched target (cart db) l -> frame target db (with_cart db l).
Proof. intros H. repeat split. exact H. Qed.

Lemma pk_determines (l : list Cart.t) (c e : Cart.t) :
  NoDup (map Cart.id l) -> In c l -> In e l -> Cart.id c = Cart.id e -> c = e.
Proof.
  induction l as [|a l IH]; cbn [map In]; [tauto|].
  intros Hnd Hc He Hid. inversion Hnd as [|x xs Hnotin Hnd']; subst.
  destruct Hc as [->|Hc], He as [->|He]; auto.
  - exfalso. apply Hnotin. rewrite Hid. now apply in_map.
  - exfalso. apply Hnotin. rewrite <- Hid. now apply in_map.
Qed.

Lemma filter_map_same {A} (p : A -> bool) (f : A -> A) (l : list A) :
  (forall x, In x l -> f x = x \/ (p (f x) = false /\ p x = false)) ->
  filter p (map f l) = filter p l.
Proof.
  induction l as [|a l IH]; cbn [map filter]; [reflexivity|].
  intros H. rewrite IH by (intros x Hx; apply H; now right).
  destruct (H a (or_introl eq_refl)) as [->|[-> ->]]; reflexivity.
Qed.

Lemma untouched_update_id (cart_id q : Z) (l : list Cart.t) :
  untouched (fun c => Cart.id c =? cart_id) l (map (update_row cart_id q) l).
Proof.
  unfold untouched. apply filter_map_same. intros c _. unfold update_row.
  destruct (Cart.id c =? cart_id) eqn:E; [right|now left].
  cbn [Cart.set_quantity Cart.id]. now rewrite E.
Qed.

Lemma untouched_delete_id (cart_id : Z) (l : list Cart.t) :
  untouched (fun c => Cart.id c =? cart_id) l
    (filter (fun c => negb (Cart.id c =? cart_id)) l).
Proof.
  unfold untouched. induction l as [|a l IH]; cbn [filter]; [reflexivity|].
  destruct (Cart.id a =? cart_id) eqn:E; cbn [negb filter]; rewrite ?E;
    cbn [negb]; now rewrite IH.
Qed.

Lemma untouched_update_product (pid q : Z) (e : Cart.t) (l : list Cart.t) :
  NoDup (map Cart.id l) -> In e l -> owned_product pid e = true ->
  untouched (owned_product pid) l (map (update_row (Cart.id e) q) l).
Proof.
  intros Hnd Hin Ho. unfold untouched. apply filter_map_same.
  intros c Hc. unfold update_row.
  destruct (Z.eqb_spec (Cart.id c) (Cart.id e)) as [Hid|]; [right|now left].
  rewrite (pk_determines l c e Hnd Hc Hin Hid).
  rewrite owned_product_set_quantity, Ho. now split.
Qed.

Lemma untouched_add_product (pid pk q : Z) (l : list Cart.t) :
  untouched (owned_product pid) l (l ++ [Cart.mk pk user_id pid q]).
Proof.
  unfold untouched. rewrite filter_app. cbn [filter]. unfold owned_product at 2.
  cbn [Cart.user_id Cart.product_id]. rewrite !Z.eqb_refl. cbn [andb negb].
  apply app_nil_r.
Qed.

Lemma add_to_cart_frame (db : DB) (pid q : Z) :
  cart_pk db ->
  frame (owned_product pid) db (fst (run (add_to_cart no_faults pid q) db)).
Proof.
  intros Hpk. rewrite add_to_cart_run.
  destruct (q >? MAX_QUANTITY); [apply frame_refl|].
  destruct (find _ (products db)); [|apply frame_refl].
  destruct (find (owned_product pid) (cart db)) as [e|] eqn:Fe.
  - destruct (Cart.quantity e + q >? MAX_QUANTITY); [apply frame_refl|].
    cbv zeta. cbn [fst]. apply frame_with_cart.
    apply find_some in Fe. destruct Fe as [Hin Ho].
    now apply untouched_update_product.
  - cbv zeta. cbn [fst]. apply frame_with_cart. apply untouched_add_product.
Qed.

Lemma update_cart_quantity_frame (db : DB) (cart_id q : Z) :
  frame (fun c => Cart.id c =? cart_id) db
    (fst (run (update_cart_quantity no_faults cart_id q) db)).
Proof.
  rewrite update_cart_quantity_run.
  destruct (q <? 1); [apply frame_refl|].
  destruct (q >? MAX_QUANTITY); [apply frame_refl|].
  destruct (find (owned_id cart_id) (cart db)) as [e|] eqn:Fe;
    [|apply frame_refl].
  apply find_some in Fe. destruct Fe as [_ Ho].
  apply owned_id_true in Ho. destruct Ho as [-> _].
  cbv zeta. cbn [fst]. apply frame_with_cart. apply untouched_update_id.
Qed.

Lemma remove_from_cart_frame (db : DB) (cart_id : Z) :
  frame (fun c => Cart.id c =? cart_id) db
    (fst (run (remove_from_cart no_faults cart_id) db)).
Proof.
  rewrite remove_from_cart_run.
  destruct (find (owned_id cart_id) (cart db)) as [e|] eqn:Fe;
    [|apply frame_refl].
  apply find_some in Fe. destruct Fe as [_ Ho].
  apply owned_id_true in Ho. destruct Ho as [-> _].
  cbn [fst]. apply frame_with_cart. apply untouched_delete_id.
Qed.

(** C10: whatever fails and whatever they answer, AddItem, UpdateQuantity
    and RemoveItem leave the Product, Category, User and Order stores as
    they were, and in the Cart store they leave every line as it was, in
    its place, except the user's line for the product (AddItem, on a cart
    table whose ids are a key) and the line with the given id
    (UpdateQuantity, RemoveItem). *)
Theorem cart_endpoints_frame
  (fails : nat -> bool) (db : DB) (product_id cart_id quantity : Z) :
  (cart_pk db ->
   frame (owned_product product_id) db
     (fst (run (add_to_cart fails product_id quantity) db)))
  /\
  frame (fun c => Cart.id c =? cart_id) db
    (fst (run (update_cart_quantity fails cart_id quantity) db))
  /\
  frame (fun c => Cart.id c =? cart_id) db
    (fst (run (remove_from_cart fails cart_id) db)).
Proof.
  split; [|split].
  - intros Hpk.
    destruct (add_to_cart_persisted fails db product_id quantity) as [->| ->];
      [apply frame_refl|now apply add_to_cart_frame].
  - destruct (update_cart_quantity_persisted fails db cart_id quantity)
      as [->| ->]; [apply frame_refl|apply update_cart_quantity_frame].
  - destruct (remove_from_cart_persisted fails db cart_id) as [->| ->];
      [apply frame_refl|apply remove_from_cart_frame].
Qed.

(** Adding fish for user 1 next to a line of user 2 and an order. *)
Lemma cart_endpoints_frame_witness :
  cart_pk two_users /\
  frame (owned_product 1) two_users
    (fst (run (add_to_cart no_faults 1 3) two_users)).
Proof.
  assert (Hpk : cart_pk two_users).
  { unfold cart_pk. cbn [two_users cart map Cart.id].
    constructor; [cbn [In]; intros [H|[]]; discriminate H|].
    constructor; [intros []|constructor]. }
  split; [exact Hpk|].
  now apply (cart_endpoints_frame no_faults two_users 1 1 3).
Defined.

(** The key is kept by every operation. *)
Lemma map_id_update_row (pk q : Z) (l : list Cart.t) :
  map Cart.id (map (update_row pk q) l) = map Cart.id l.
Proof.
  rewrite map_map. apply map_ext. intros c. unfold update_row.
  now destruct (Cart.id c =? pk).
Qed.

Lemma cart_ids_filter (keep : Cart.t -> bool) (rows : list Cart.t) :
  NoDup (map Cart.id rows) -> NoDup (map Cart.id (filter keep rows)).
Proof.
  induction rows as [|c rows IH]; cbn [map filter]; [auto|].
  intros H. inversion H as [|x xs Hnotin Hnd]; subst.
  destruct (keep c); [|now apply IH].
  cbn [map]. constructor; [|now apply IH].
  intros Hin. apply Hnotin. apply in_map_iff in Hin.
  destruct Hin as (x & Hx & Hin). rewrite <- Hx.
  apply filter_In in Hin. now apply in_map.
Qed.

Lemma cart_pk_preserved
  (fails : nat -> bool) (now : Z) (r : request) (db : DB) :
  cart_pk db -> cart_pk (serve fails now r db).
Proof.
  intros Hpk. destruct r as [pid q|cid q|cid|]; cbn [serve].
  - destruct (add_to_cart_persisted fails db pid q) as [->| ->];
      [exact Hpk|].
    rewrite add_to_cart_run.
    destruct (q >? MAX_QUANTITY); [exact Hpk|].
    destruct (find _ (products db)); [|exact Hpk].
    destruct (find (owned_product pid) (cart db)) as [e|].
    + destruct (Cart.quantity e + q >? MAX_QUANTITY); [exact Hpk|].
      cbv zeta. unfold cart_pk. cbn [fst cart with_cart].
      now rewrite map_id_update_row.
    + cbv zeta. unfold cart_pk. cbn [fst cart with_cart].
      rewrite map_app. cbn [map Cart.id].
      apply NoDup_app; [exact Hpk|constructor; [intros []|constructor]|].
      intros x Hx [<-|[]]. apply next_id_above in Hx. lia.
  - destruct (update_cart_quantity_persisted fails db cid q) as [->| ->];
      [exact Hpk|].
    rewrite update_cart_quantity_run.
    destruct (q <? 1); [exact Hpk|].
    destruct (q >? MAX_QUANTITY); [exact Hpk|].
    destruct (find (owned_id cid) (cart db)) as [e|]; [|exact Hpk].
    cbv zeta. unfold cart_pk. cbn [fst cart with_cart].
    now rewrite map_id_update_row.
  - destruct (remove_from_cart_persisted fails db cid) as [->| ->];
      [exact Hpk|].
    rewrite remove_from_cart_run.
    destruct (find (owned_id cid) (cart db)) as [e|]; [|exact Hpk].
    unfold cart_pk. cbn [fst cart with_cart]. now apply cart_ids_filter.
  - destruct (create_order_outcomes fails now db)
      as [(o & ->)|[(e & ->)|(o & ->)]]; cbn [fst]; try exact Hpk.
    constructor.
Qed.

(** ** Whose cart, whose orders *)

Lemma get_cart_run (db : DB) :
  run (get_cart no_faults) db = (db, Returned (cart_of_user db)).
Proof. reflexivity. Qed.

Lemma get_orders_run (db : DB) :
  run (get_orders no_faults) db = (db, Returned (orders db)).
Proof. reflexivity. Qed.

Lemma total_of_spec (ps : list Product.t) (l : list Cart.t) (acc t : Q) :
  total_of ps l acc = Some t -> (t == acc + spec_total ps l)%Q.
Proof.
  revert acc. induction l as [|c l IH]; intros acc; cbn [total_of spec_total fold_right].
  - intros [= <-]. ring.
  - unfold line_price at 1.
    destruct (find (fun p => Product.id p =? Cart.product_id c) ps) as [p|];
      [|discriminate].
    intros H. apply IH in H. rewrite H. fold (spec_total ps l). ring.
Qed.

Lemma total_of_some (ps : list Product.t) (l : list Cart.t) (acc : Q) :
  (forall c, In c l -> exists p, In p ps /\ Product.id p = Cart.product_id c) ->
  exists t, total_of ps l acc = Some t.
Proof.
  revert acc. induction l as [|c l IH]; intros acc Hall; cbn [total_of].
  - now exists acc.
  - destruct (Hall c (or_introl eq_refl)) as (p & Hin & Hid).
    destruct (find (fun p => Product.id p =? Cart.product_id c) ps)
      as [p0|] eqn:F.
    + apply IH. intros x Hx. apply Hall. now right.
    + apply find_none with (x := p) in F; [|exact Hin].
      apply Z.eqb_neq in F. contradiction.
Qed.

Lemma filter_everything {A} (p : A -> bool) (l : list A) :
  (forall x, In x l -> p x = true) -> filter p l = l.
Proof.
  induction l as [|a l IH]; cbn [filter]; [reflexivity|].
  intros H. rewrite (H a (or_introl eq_refl)), IH; [reflexivity|].
  intros x Hx. apply H. now right.
Qed.

(** Where every cart line is the user's and has its product, Checkout of a
    non-empty cart does what the spec says: one new order, pending, for the
    total of the user's lines, and an empty cart listing afterwards. *)
Lemma create_order_own_cart (now : Z) (db : DB) :
  cart db <> [] ->
  (forall c, In c (cart db) -> Cart.user_id c = user_id) ->
  (forall c, In c (cart db) ->
             exists p, In p (products db) /\ Product.id p = Cart.product_id c) ->
  exists o,
    run (create_order no_faults now) db
    = (cart_cleared (order_placed db o), Returned o) /\
    (Order.total_price o == spec_total (products db) (cart_of_user db))%Q /\
    Order.status o = "pending"%string /\
    Order.user_id o = user_id /\
    snd (run (get_cart no_faults) (cart_cleared (order_placed db o)))
    = Returned [].
Proof.
  intros Hne Hown Hprod. rewrite create_order_run.
  destruct (cart db) as [|c l] eqn:Ecart; [contradiction|].
  destruct (total_of_some (products db) (c :: l) 0%Q Hprod) as [t Ht].
  rewrite Ht. exists (new_order now db t).
  split; [reflexivity|]. split; [|repeat split].
  cbn [new_order Order.total_price]. unfold cart_of_user. rewrite Ecart.
  rewrite filter_everything
    by (intros x Hx; apply Z.eqb_eq; now apply Hown).
  apply total_of_spec in Ht. rewrite Ht. ring.
Qed.

(** Checkout answers "Cart is empty" exactly when the whole cart table is
    empty, and then changes nothing. *)
Lemma create_order_empty_iff (now : Z) (db : DB) :
  (snd (run (create_order no_faults now) db)
   = Raised (HTTPException 400 CartIsEmpty) <-> cart db = []) /\
  (cart db = [] -> fst (run (create_order no_faults now) db) = db).
Proof.
  rewrite create_order_run. destruct (cart db) as [|c l] eqn:Ecart.
  - split; [split; reflexivity|reflexivity].
  - destruct (total_of (products db) (c :: l) 0%Q); cbn [fst snd];
      (split; [split|]; discriminate).
Qed.

(** C3 at its failing input: user 1 has no cart line and user 2 has one.
    The cart of user 1 lists as empty, yet Checkout does not answer
    "Cart is empty": it returns an order for user 1, priced from the line
    of user 2, and deletes that line. *)
Theorem checkout_of_anothers_cart :
  cart_of_user others_cart = [] /\
  run (create_order no_faults 0) others_cart
  = (mkDB [fish; roe] [] [] []
       [Order.mk 1 1 (0 + (10 # 1) * inject_Z 3)%Q "pending" 0],
     Returned (Order.mk 1 1 (0 + (10 # 1) * inject_Z 3)%Q "pending" 0)).
Proof. split; reflexivity. Qed.

(** C4 at its failing input: user 1 holds two fish (20 in all) and user 2
    one roe (5.50).  The order written for user 1 totals 25.50, not the 20
    of the lines of user 1. *)
Theorem checkout_totals_every_cart :
  exists o db',
    run (create_order no_faults 0) two_users = (db', Returned o) /\
    Order.user_id o = user_id /\
    (Order.total_price o == 51 # 2)%Q /\
    (spec_total (products two_users) (cart_of_user two_users) == 20 # 1)%Q /\
    ~ (Order.total_price o
       == spec_total (products two_users) (cart_of_user two_users))%Q.
Proof.
  do 2 eexists. split; [reflexivity|].
  split; [reflexivity|]. split; [reflexivity|]. split; [reflexivity|].
  intros H. vm_compute in H. discriminate H.
Qed.

(** C8 at its failing input: the only order is one of user 2, and the
    listing made for user 1 returns it. *)
Theorem get_orders_of_everyone :
  run (get_orders no_faults) two_users
  = (two_users, Returned [Order.mk 1 2 (5 # 1) "pending" 0]) /\
  Order.user_id (Order.mk 1 2 (5 # 1) "pending" 0) <> user_id.
Proof. split; [reflexivity|discriminate]. Qed.

(** * Further properties of the routers *)

(** ** One commit per cart endpoint *)

Lemma add_to_cart_single_commit (fails : nat -> bool) (db : DB) (pid q : Z) :
  single_commit db
    (run (add_to_cart fails pid q) db) (run (add_to_cart no_faults pid q) db).
Proof.
  unfold single_commit. unfold_session. repeat case_guard;
    (split; [auto|split; [intros a Ha|intros code d Ha; split]]);
    cbn [fst snd] in *; try discriminate; reflexivity.
Qed.

Lemma update_cart_quantity_single_commit
  (fails : nat -> bool) (db : DB) (cart_id q : Z) :
  single_commit db
    (run (update_cart_quantity fails cart_id q) db)
    (run (update_cart_quantity no_faults cart_id q) db).
Proof.
  unfold single_commit. unfold_session. repeat case_guard;
    (split; [auto|split; [intros a Ha|intros code d Ha; split]]);
    cbn [fst snd] in *; try discriminate; reflexivity.
Qed.

Lemma remove_from_cart_single_commit
  (fails : nat -> bool) (db : DB) (cart_id : Z) :
  single_commit db
    (run (remove_from_cart fails cart_id) db)
    (run (remove_from_cart no_faults cart_id) db).
Proof.
  unfold single_commit. unfold_session. repeat case_guard;
    (split; [auto|split; [intros a Ha|intros code d Ha; split]]);
    cbn [fst snd] in *; try discriminate; reflexivity.
Qed.

(** X1: each cart endpoint commits once.  Whatever fails, AddItem,
    UpdateQuantity and RemoveItem leave the database as it was or as the
    fault-free run leaves it; an answer that is returned is the fault-free
    answer on the fault-free database; and an [HTTPException] is raised
    before anything is written. *)
Theorem cart_endpoints_single_commit
  (fails : nat -> bool) (db : DB) (product_id cart_id quantity : Z) :
  single_commit db
    (run (add_to_cart fails product_id quantity) db)
    (run (add_to_cart no_faults product_id quantity) db) /\
  single_commit db
    (run (update_cart_quantity fails cart_id quantity) db)
    (run (update_cart_quantity no_faults cart_id quantity) db) /\
  single_commit db
    (run (remove_from_cart fails cart_id) db)
    (run (remove_from_cart no_faults cart_id) db).
Proof.
  split; [|split].
  - apply add_to_cart_single_commit.
  - apply update_cart_quantity_single_commit.
  - apply remove_from_cart_single_commit.
Qed.

(** ** AddItem, further *)

Lemma find_product_none (db : DB) (pid : Z) :
  find (fun p => Product.id p =? pid) (products db) = None <->
  (forall p, In p (products db) -> Product.id p <> pid).
Proof.
  split.
  - intros F p Hin. apply find_none with (x := p) in F; [|exact Hin].
    now apply Z.eqb_neq.
  - intros H. apply find_nothing. intros p Hin. apply Z.eqb_neq. now apply H.
Qed.

(** X2: with a quantity of at most 99 and no fault, AddItem answers 404
    "product not found" exactly when no product has the given id, and then
    writes nothing. *)
Theorem add_to_cart_missing_product (db : DB) (product_id quantity : Z) :
  quantity <= MAX_QUANTITY ->
  (snd (run (add_to_cart no_faults product_id quantity) db)
   = Raised (HTTPException 404 ProductNotFound)
   <-> (forall p, In p (products db) -> Product.id p <> product_id)) /\
  ((forall p, In p (products db) -> Product.id p <> product_id) ->
   fst (run (add_to_cart no_faults product_id quantity) db) = db).
Proof.
  intros Hq. rewrite add_to_cart_run, <- find_product_none.
  destruct (Z.gtb_spec quantity MAX_QUANTITY); [lia|].
  destruct (find (fun p => Product.id p =? product_id) (products db)) as [p|].
  - split; [|discriminate].
    split; [|discriminate].
    destruct (find (owned_product product_id) (cart db)) as [e|].
    + destruct (Cart.quantity e + quantity >? MAX_QUANTITY);
        cbv zeta; cbn [snd]; [discriminate|].
      unfold refreshed. destruct (find _ _); discriminate.
    + cbv zeta. cbn [snd]. unfold refreshed. destruct (find _ _); discriminate.
  - split; [split|]; reflexivity.
Qed.

(** No product 7 in the shop. *)
Lemma add_to_cart_missing_product_witness :
  run (add_to_cart no_faults 7 3) shop
  = (shop, Raised (HTTPException 404 ProductNotFound)).
Proof.
  destruct (add_to_cart_missing_product shop 7 3) as [[_ Hanswer] Hdb];
    [unfold MAX_QUANTITY; lia|].
  assert (Hmissing : forall p, In p (products shop) -> Product.id p <> 7).
  { intros p [<-|[<-|[]]]; discriminate. }
  specialize (Hanswer Hmissing). specialize (Hdb Hmissing).
  destruct (run (add_to_cart no_faults 7 3) shop) as [db' r].
  cbn [fst snd] in *. now subst.
Defined.

(** X3: on a cart table whose ids are a key, a line that AddItem returns,
    whatever failed, is a line of the user for the product, it is stored and
    listed in the user's cart, and its quantity is the given one plus that
    of the user's earlier line for the product, if there was one, and at
    most 99. *)
Theorem add_to_cart_returns_stored_line
  (fails : nat -> bool) (db : DB) (product_id quantity : Z) (line : Cart.t) :
  cart_pk db ->
  snd (run (add_to_cart fails product_id quantity) db) = Returned line ->
  In line (cart_of_user (fst (run (add_to_cart fails product_id quantity) db)))
  /\ Cart.user_id line = user_id
  /\ Cart.product_id line = product_id
  /\ Cart.quantity line
     = match find (owned_product product_id) (cart db) with
       | Some e => Cart.quantity e + quantity
       | None => quantity
       end
  /\ Cart.quantity line <= MAX_QUANTITY.
Proof.
  intros Hpk Hret.
  destruct (add_to_cart_single_commit fails db product_id quantity)
    as (_ & Hclean & _).
  pose proof (Hclean line Hret) as E. rewrite E in Hret |- *. clear Hclean E.
  rewrite add_to_cart_run in Hret |- *.
  destruct (Z.gtb_spec quantity MAX_QUANTITY);
    [cbn [snd] in Hret; discriminate|].
  destruct (find (fun p => Product.id p =? product_id) (products db));
    [|cbn [snd] in Hret; discriminate].
  destruct (find (owned_product product_id) (cart db)) as [e|] eqn:Fe.
  - destruct (Z.gtb_spec (Cart.quantity e + quantity) MAX_QUANTITY);
      [cbn [snd] in Hret; discriminate|].
    cbv zeta in *. cbn [fst snd] in *.
    apply find_some in Fe. destruct Fe as [Hin Ho].
    destruct (refreshed_after_update db e (Cart.quantity e + quantity) Hin)
      as (c & Hc & Hcin & Hcid).
    rewrite Hc in Hret. injection Hret as <-.
    rewrite (pk_determines (cart db) c e Hpk Hcin Hin Hcid).
    apply owned_product_true in Ho. destruct Ho as [Hu Hp].
    split; [|now repeat split].
    unfold cart_of_user. cbn [cart with_cart]. apply filter_In. split.
    + apply in_map_iff. exists e. split; [|exact Hin].
      unfold update_row. now rewrite Z.eqb_refl.
    + unfold owned. cbn [Cart.set_quantity Cart.user_id]. now apply Z.eqb_eq.
  - cbv zeta in *. cbn [fst snd] in *. unfold refreshed in Hret.
    cbn [cart with_cart] in Hret.
    rewrite find_snoc, find_id_fresh in Hret. cbn [Cart.id] in Hret.
    rewrite Z.eqb_refl in Hret. injection Hret as <-.
    split; [|now repeat split].
    unfold cart_of_user. cbn [cart with_cart]. apply filter_In. split.
    + apply in_or_app. right. now left.
    + reflexivity.
Qed.

(** Three more fish onto the two of user 1. *)
Lemma add_to_cart_returns_stored_line_witness :
  In (Cart.mk 1 1 1 5)
     (cart_of_user (fst (run (add_to_cart no_faults 1 3) two_users))).
Proof.
  apply (add_to_cart_returns_stored_line no_faults two_users 1 3
           (Cart.mk 1 1 1 5)).
  - unfold cart_pk. cbn [two_users cart map Cart.id].
    constructor; [cbn [In]; intros [H|[]]; discriminate H|].
    constructor; [intros []|constructor].
  - reflexivity.
Defined.

(** ** The upper bound needs no schema *)

Lemma at_most_max_update_row (pk q : Z) (l : list Cart.t) :
  q <= MAX_QUANTITY ->
  Forall (fun c => Cart.quantity c <= MAX_QUANTITY) l ->
  Forall (fun c => Cart.quantity c <= MAX_QUANTITY) (map (update_row pk q) l).
Proof.
  intros Hq H. apply Forall_map. eapply Forall_impl; [|exact H].
  intros c Hc. cbv beta. unfold update_row.
  destruct (Cart.id c =? pk); [exact Hq|exact Hc].
Qed.

(** X4: no operation ever stores a quantity above 99.  From a state whose
    stored quantities are all at most 99, AddItem, UpdateQuantity,
    RemoveItem and Checkout give such a state again, for every integer
    argument, schema or no schema, and whatever fails. *)
Theorem quantity_never_over_max
  (fails : nat -> bool) (now : Z) (r : request) (db : DB) :
  at_most_max db -> at_most_max (serve fails now r db).
Proof.
  intros Hinv. destruct r as [pid q|cid q|cid|]; cbn [serve].
  - destruct (add_to_cart_persisted fails db pid q) as [->| ->];
      [exact Hinv|].
    rewrite add_to_cart_run.
    destruct (Z.gtb_spec q MAX_QUANTITY) as [|Hle]; [exact Hinv|].
    destruct (find _ (products db)); [|exact Hinv].
    destruct (find (owned_product pid) (cart db)) as [e|].
    + destruct (Z.gtb_spec (Cart.quantity e + q) MAX_QUANTITY); [exact Hinv|].
      cbv zeta. unfold at_most_max. cbn [fst cart with_cart].
      now apply at_most_max_update_row.
    + cbv zeta. unfold at_most_max. cbn [fst cart with_cart].
      apply Forall_app. split; [exact Hinv|].
      constructor; [exact Hle|constructor].
  - destruct (update_cart_quantity_persisted fails db cid q) as [->| ->];
      [exact Hinv|].
    rewrite update_cart_quantity_run.
    destruct (q <? 1); [exact Hinv|].
    destruct (Z.gtb_spec q MAX_QUANTITY); [exact Hinv|].
    destruct (find (owned_id cid) (cart db)) as [e|]; [|exact Hinv].
    cbv zeta. unfold at_most_max. cbn [fst cart with_cart].
    now apply at_most_max_update_row.
  - destruct (remove_from_cart_persisted fails db cid) as [->| ->];
      [exact Hinv|].
    rewrite remove_from_cart_run.
    destruct (find (owned_id cid) (cart db)) as [e|]; [|exact Hinv].
    unfold at_most_max. cbn [fst cart with_cart]. now apply Forall_filter.
  - destruct (create_order_outcomes fails now db)
      as [(o & ->)|[(e & ->)|(o & ->)]]; cbn [fst]; try exact Hinv.
    constructor.
Qed.


(** A negative quantity is stored by AddItem, but not one above 99. *)
Lemma quantity_never_over_max_witness :
  at_most_max (serve no_faults 0 (AddItem 1 (-5)) one_line) /\
  cart (serve no_faults 0 (AddItem 1 (-5)) one_line) = [Cart.mk 1 1 1 45].
Proof.
  split; [|reflexivity].
  apply quantity_never_over_max.
  constructor; [|constructor]. cbn [Cart.quantity]. unfold MAX_QUANTITY. lia.
Defined.

(** ** Other users' lines *)

Lemma filter_filter_same {A} (p q : A -> bool) (l : list A) :
  (forall x, In x l -> q x = false -> p x = false) ->
  filter p (filter q l) = filter p l.
Proof.
  induction l as [|a l IH]; cbn [filter]; [reflexivity|].
  intros H. specialize (IH (fun x Hx => H x (or_intror Hx))).
  destruct (q a) eqn:Eq; cbn [filter]; rewrite IH; [reflexivity|].
  now rewrite (H a (or_introl eq_refl) Eq).
Qed.

Lemma others_update_row (e : Cart.t) (q : Z) (l : list Cart.t) :
  NoDup (map Cart.id l) -> In e l -> owned e = true ->
  filter (fun c => negb (owned c)) (map (update_row (Cart.id e) q) l)
  = filter (fun c => negb (owned c)) l.
Proof.
  intros Hnd Hin Ho. apply filter_map_same. intros c Hc. unfold update_row.
  destruct (Z.eqb_spec (Cart.id c) (Cart.id e)) as [Hid|]; [right|now left].
  rewrite (pk_determines l c e Hnd Hc Hin Hid).
  unfold owned in *. cbn [Cart.set_quantity Cart.user_id]. now rewrite Ho.
Qed.

Lemma others_delete (e : Cart.t) (l : list Cart.t) :
  NoDup (map Cart.id l) -> In e l -> owned e = true ->
  filter (fun c => negb (owned c))
    (filter (fun c => negb (Cart.id c =? Cart.id e)) l)
  = filter (fun c => negb (owned c)) l.
Proof.
  intros Hnd Hin Ho. apply filter_filter_same. intros c Hc Hdel.
  apply negb_false_iff, Z.eqb_eq in Hdel.
  rewrite (pk_determines l c e Hnd Hc Hin Hdel). now rewrite Ho.
Qed.

Lemma owned_of_owned_product (pid : Z) (c : Cart.t) :
  owned_product pid c = true -> owned c = true.
Proof. unfold owned_product, owned. now intros [H _]%andb_true_iff. Qed.

Lemma owned_of_owned_id (cart_id : Z) (c : Cart.t) :
  owned_id cart_id c = true -> owned c = true.
Proof. unfold owned_id, owned. now intros [_ H]%andb_true_iff. Qed.

(** X5: on a cart table whose ids are a key, AddItem, UpdateQuantity and
    RemoveItem never add, change, move or delete a cart line of another
    user, whatever the arguments (also a cart id that is another user's),
    the answer and the faults. *)
Theorem cart_endpoints_keep_other_users
  (fails : nat -> bool) (db : DB) (product_id cart_id quantity : Z) :
  cart_pk db ->
  carts_of_others (fst (run (add_to_cart fails product_id quantity) db))
  = carts_of_others db /\
  carts_of_others (fst (run (update_cart_quantity fails cart_id quantity) db))
  = carts_of_others db /\
  carts_of_others (fst (run (remove_from_cart fails cart_id) db))
  = carts_of_others db.
Proof.
  intros Hpk. unfold carts_of_others. split; [|split].
  - destruct (add_to_cart_persisted fails db product_id quantity)
      as [->| ->]; [reflexivity|].
    rewrite add_to_cart_run.
    destruct (quantity >? MAX_QUANTITY); [reflexivity|].
    destruct (find _ (products db)); [|reflexivity].
    destruct (find (owned_product product_id) (cart db)) as [e|] eqn:Fe.
    + destruct (Cart.quantity e + quantity >? MAX_QUANTITY); [reflexivity|].
      cbv zeta. cbn [fst cart with_cart].
      apply find_some in Fe. destruct Fe as [Hin Ho].
      apply others_update_row; eauto using owned_of_owned_product.
    + cbv zeta. cbn [fst cart with_cart]. rewrite filter_app.
      cbn [filter]. unfold owned at 2. cbn [Cart.user_id].
      rewrite Z.eqb_refl. cbn [negb]. apply app_nil_r.
  - destruct (update_cart_quantity_persisted fails db cart_id quantity)
      as [->| ->]; [reflexivity|].
    rewrite update_cart_quantity_run.
    destruct (quantity <? 1); [reflexivity|].
    destruct (quantity >? MAX_QUANTITY); [reflexivity|].
    destruct (find (owned_id cart_id) (cart db)) as [e|] eqn:Fe;
      [|reflexivity].
    cbv zeta. cbn [fst cart with_cart].
    apply find_some in Fe. destruct Fe as [Hin Ho].
    apply others_update_row; eauto using owned_of_owned_id.
  - destruct (remove_from_cart_persisted fails db cart_id) as [->| ->];
      [reflexivity|].
    rewrite remove_from_cart_run.
    destruct (find (owned_id cart_id) (cart db)) as [e|] eqn:Fe;
      [|reflexivity].
    cbn [fst cart with_cart].
    apply find_some in Fe. destruct Fe as [Hin Ho].
    apply others_delete; eauto using owned_of_owned_id.
Qed.

(** User 1 tries to delete line 2, which is user 2's: it stays. *)
Lemma cart_endpoints_keep_other_users_witness :
  carts_of_others (fst (run (remove_from_cart no_faults 2) two_users))
  = [Cart.mk 2 2 2 1].
Proof.
  assert (Hpk : cart_pk two_users).
  { unfold cart_pk. cbn [two_users cart map Cart.id].
    constructor; [cbn [In]; intros [H|[]]; discriminate H|].
    constructor; [intros []|constructor]. }
  destruct (cart_endpoints_keep_other_users no_faults two_users 1 2 1 Hpk)
    as (_ & _ & ->).
  reflexivity.
Defined.

(** ** RemoveItem *)

Lemma get_cart_count_run (db : DB) :
  run (get_cart_count no_faults) db
  = (db, Returned (Z.of_nat (List.length (cart_of_user db)))).
Proof. reflexivity. Qed.

Lemma filter_other_ids (e : Cart.t) (l : list Cart.t) :
  ~ In (Cart.id e) (map Cart.id l) ->
  filter (fun c => negb (Cart.id c =? Cart.id e)) l = l.
Proof.
  intros Hnotin. apply filter_everything. intros c Hc.
  apply negb_true_iff, Z.eqb_neq. intros Hid. apply Hnotin.
  rewrite <- Hid. now apply in_map.
Qed.

Lemma length_filter_delete (p : Cart.t -> bool) (e : Cart.t) (l : list Cart.t) :
  NoDup (map Cart.id l) -> In e l -> p e = true ->
  S (List.length
       (filter p (filter (fun c => negb (Cart.id c =? Cart.id e)) l)))
  = List.length (filter p l).
Proof.
  induction l as [|a l IH]; cbn [map In]; [tauto|].
  intros Hnd Hin Hp. inversion Hnd as [|x xs Hnotin Hnd']; subst.
  cbn [filter]. destruct (Z.eqb_spec (Cart.id a) (Cart.id e)) as [Hid|Hid].
  - assert (a = e) as ->.
    { apply (pk_determines (a :: l) a e Hnd); cbn [In]; auto. }
    cbn [negb]. rewrite (filter_other_ids e l Hnotin), Hp. reflexivity.
  - destruct Hin as [->|Hin]; [contradiction|].
    cbn [negb filter]. specialize (IH Hnd' Hin Hp).
    destruct (p a); cbn [List.length]; now rewrite IH.
Qed.

(** X6: without a fault, RemoveItem answers 404 and writes nothing when no
    cart line with the id belongs to the user.  When one does, it returns,
    no row with that id is left, every row with another id is still there,
    a second RemoveItem of the id answers 404, and, the ids being a key,
    the cart count has gone down by exactly one. *)
Theorem remove_from_cart_spec (db : DB) (cart_id : Z) :
  ((forall c, In c (cart db) ->
              ~ (Cart.id c = cart_id /\ Cart.user_id c = user_id)) ->
   run (remove_from_cart no_faults cart_id) db
   = (db, Raised (HTTPException 404 CartItemNotFound)))
  /\
  (forall e, In e (cart db) -> Cart.id e = cart_id -> Cart.user_id e = user_id ->
   let db' := fst (run (remove_from_cart no_faults cart_id) db) in
   snd (run (remove_from_cart no_faults cart_id) db) = Returned tt /\
   (forall c, In c (cart db') -> Cart.id c <> cart_id) /\
   (forall c, In c (cart db) -> Cart.id c <> cart_id -> In c (cart db')) /\
   run (remove_from_cart no_faults cart_id) db'
   = (db', Raised (HTTPException 404 CartItemNotFound)) /\
   (cart_pk db ->
    Z.of_nat (List.length (cart_of_user db'))
    = Z.of_nat (List.length (cart_of_user db)) - 1)).
Proof.
  split.
  - intros Hnone. rewrite remove_from_cart_run.
    now rewrite (find_owned_id_none db cart_id Hnone).
  - intros e Hin Hid Hu db'. subst db'. rewrite !remove_from_cart_run.
    destruct (find_owned_id_some db cart_id e Hin Hid Hu)
      as (e0 & F & Hin0 & Hid0).
    rewrite F. cbn [fst snd cart with_cart]. rewrite Hid0.
    assert (Hgone : forall c,
               In c (filter (fun c => negb (Cart.id c =? cart_id)) (cart db)) ->
               Cart.id c <> cart_id).
    { intros c Hc. apply filter_In in Hc. destruct Hc as [_ Hc].
      now apply negb_true_iff, Z.eqb_neq in Hc. }
    split; [reflexivity|]. split; [exact Hgone|]. split; [|split].
    + intros c Hc Hcid. apply filter_In. split; [exact Hc|].
      now apply negb_true_iff, Z.eqb_neq.
    + rewrite find_nothing; [reflexivity|].
      intros c Hc. apply Hgone in Hc.
      destruct (owned_id cart_id c) eqn:E; [|reflexivity].
      apply owned_id_true in E. tauto.
    + intros Hpk. unfold cart_of_user. cbn [cart with_cart].
      apply find_some in F. destruct F as [_ Ho].
      rewrite <- Hid0.
      rewrite <- (length_filter_delete owned e0 (cart db) Hpk Hin0
                    (owned_of_owned_id _ _ Ho)).
      lia.
Qed.

(** User 1 deletes line 1 of [two_users]; line 2 is user 2's. *)
Lemma remove_from_cart_spec_witness :
  run (remove_from_cart no_faults 2) two_users
  = (two_users, Raised (HTTPException 404 CartItemNotFound)) /\
  cart (fst (run (remove_from_cart no_faults 1) two_users))
  = [Cart.mk 2 2 2 1] /\
  snd (run (remove_from_cart no_faults 1) two_users) = Returned tt.
Proof.
  destruct (remove_from_cart_spec two_users 2) as [Hnone _].
  destruct (remove_from_cart_spec two_users 1) as [_ Hsome].
  split; [|split].
  - apply Hnone. intros c [<-|[<-|[]]] [H1 H2]; discriminate.
  - reflexivity.
  - apply (Hsome (Cart.mk 1 1 1 2)); [now left|reflexivity|reflexivity].
Defined.

(** X7: adding a product the user has no line for and then removing the
    line that was returned gives back the database one started from. *)
Theorem add_then_remove_restores (db : DB) (product_id quantity : Z) :
  quantity <= MAX_QUANTITY ->
  (exists p, In p (products db) /\ Product.id p = product_id) ->
  (forall c, In c (cart db) ->
             ~ (Cart.user_id c = user_id /\ Cart.product_id c = product_id)) ->
  exists line db1,
    run (add_to_cart no_faults product_id quantity) db = (db1, Returned line) /\
    run (remove_from_cart no_faults (Cart.id line)) db1 = (db, Returned tt).
Proof.
  intros Hq Hp Hnone. do 2 eexists.
  split; [now apply add_to_cart_new|].
  rewrite remove_from_cart_run. cbn [cart with_cart Cart.id].
  rewrite find_snoc, find_nothing.
  - unfold owned_id at 1. cbn [Cart.id Cart.user_id].
    rewrite !Z.eqb_refl. cbn [andb Cart.id].
    rewrite filter_app. cbn [filter Cart.id]. rewrite Z.eqb_refl. cbn [negb].
    rewrite app_nil_r, filter_everything; [now destruct db|].
    intros c Hc. apply negb_true_iff, Z.eqb_neq.
    pose proof (next_id_above _ _ (in_map Cart.id _ _ Hc)). lia.
  - intros c Hc. unfold owned_id.
    pose proof (next_id_above _ _ (in_map Cart.id _ _ Hc)).
    destruct (Z.eqb_spec (Cart.id c) (next_id (map Cart.id (cart db))));
      [lia|reflexivity].
Qed.

(** Four roe into a cart that holds fish only, and out again. *)
Lemma add_then_remove_restores_witness :
  run (remove_from_cart no_faults 2)
    (fst (run (add_to_cart no_faults 2 4) one_line))
  = (one_line, Returned tt).
Proof.
  destruct (add_then_remove_restores one_line 2 4)
    as (line & db1 & Hadd & Hrem).
  - unfold MAX_QUANTITY. lia.
  - exists roe. split; [right; left; reflexivity|reflexivity].
  - intros c [<-|[]] [_ H]. discriminate H.
  - injection Hadd as <- <-. exact Hrem.
Defined.

(** ** UpdateQuantity and the count *)

Lemma update_row_twice (pk q1 q2 : Z) (l : list Cart.t) :
  map (update_row pk q2) (map (update_row pk q1) l) = map (update_row pk q2) l.
Proof.
  rewrite map_map. apply map_ext. intros c. unfold update_row.
  destruct (Cart.id c =? pk) eqn:E.
  - cbn [Cart.set_quantity Cart.id]. now rewrite E.
  - now rewrite E.
Qed.

Lemma id_update_row (pk q : Z) (c : Cart.t) :
  Cart.id (update_row pk q c) = Cart.id c.
Proof. unfold update_row. now destruct (Cart.id c =? pk). Qed.

Lemma find_update_row (p : Cart.t -> bool) (pk q : Z) (l : list Cart.t) :
  (forall c q', p (Cart.set_quantity q' c) = p c) ->
  find p (map (update_row pk q) l) = option_map (update_row pk q) (find p l).
Proof. exact (find_update_quantity p pk q l). Qed.

(** X8: the last UpdateQuantity wins.  For a quantity q2 in [1, 99],
    UpdateQuantity of q2 after an UpdateQuantity of the same line with any
    q1 answers and leaves the database exactly as UpdateQuantity of q2
    alone. *)
Theorem update_cart_quantity_last_wins (db : DB) (cart_id q1 q2 : Z) :
  1 <= q2 <= MAX_QUANTITY ->
  run (update_cart_quantity no_faults cart_id q2)
      (fst (run (update_cart_quantity no_faults cart_id q1) db))
  = run (update_cart_quantity no_faults cart_id q2) db.
Proof.
  intros Hq2. rewrite (update_cart_quantity_run db cart_id q1).
  destruct (q1 <? 1); [reflexivity|].
  destruct (q1 >? MAX_QUANTITY); [reflexivity|].
  destruct (find (owned_id cart_id) (cart db)) as [e|] eqn:Fe; [|reflexivity].
  cbv zeta. cbn [fst]. rewrite !update_cart_quantity_run.
  destruct (Z.ltb_spec q2 1); [lia|].
  destruct (Z.gtb_spec q2 MAX_QUANTITY); [lia|].
  cbn [cart with_cart].
  rewrite (find_update_row (owned_id cart_id)) by reflexivity.
  rewrite Fe. cbn [option_map]. cbv zeta.
  rewrite id_update_row, update_row_twice. reflexivity.
Qed.

(** 7 and then 9 on the line of fifty fish: 9. *)
Lemma update_cart_quantity_last_wins_witness :
  cart (fst (run (update_cart_quantity no_faults 1 9)
               (fst (run (update_cart_quantity no_faults 1 7) one_line))))
  = [Cart.mk 1 1 1 9].
Proof.
  rewrite (update_cart_quantity_last_wins one_line 1 7 9)
    by (unfold MAX_QUANTITY; lia).
  reflexivity.
Defined.

Lemma length_filter_update_row (pk q : Z) (l : list Cart.t) :
  List.length (filter owned (map (update_row pk q) l))
  = List.length (filter owned l).
Proof.
  induction l as [|a l IH]; cbn [map filter]; [reflexivity|].
  replace (owned (update_row pk q a)) with (owned a)
    by (unfold update_row; now destruct (Cart.id a =? pk)).
  destruct (owned a); cbn [List.length]; now rewrite IH.
Qed.

(** X9: the cart count counts lines, not quantities.  When AddItem
    returns, whatever failed, the count that Count answers afterwards is
    the count before plus one if the user had no line for the product, and
    the count before if the quantity was merged into a line. *)
Theorem add_to_cart_count
  (fails : nat -> bool) (db : DB) (product_id quantity : Z) (line : Cart.t) :
  snd (run (add_to_cart fails product_id quantity) db) = Returned line ->
  exists n,
    snd (run (get_cart_count no_faults) db) = Returned n /\
    snd (run (get_cart_count no_faults)
           (fst (run (add_to_cart fails product_id quantity) db)))
    = Returned (match find (owned_product product_id) (cart db) with
                | Some _ => n
                | None => n + 1
                end).
Proof.
  intros Hret. rewrite !get_cart_count_run. cbn [snd].
  eexists. split; [reflexivity|]. f_equal.
  destruct (add_to_cart_single_commit fails db product_id quantity)
    as (_ & Hclean & _).
  pose proof (Hclean line Hret) as E. rewrite E in Hret |- *. clear Hclean E.
  rewrite add_to_cart_run in Hret |- *.
  destruct (quantity >? MAX_QUANTITY); [cbn [snd] in Hret; discriminate|].
  destruct (find (fun p => Product.id p =? product_id) (products db));
    [|cbn [snd] in Hret; discriminate].
  destruct (find (owned_product product_id) (cart db)) as [e|].
  - destruct (Cart.quantity e + quantity >? MAX_QUANTITY);
      [cbn [snd] in Hret; discriminate|].
    cbv zeta. unfold cart_of_user. cbn [fst cart with_cart].
    now rewrite length_filter_update_row.
  - cbv zeta. unfold cart_of_user. cbn [fst cart with_cart].
    rewrite filter_app, length_app. cbn [filter]. unfold owned at 2.
    cbn [Cart.user_id]. rewrite Z.eqb_refl. cbn [List.length]. lia.
Qed.

(** Forty-nine more fish onto fifty: still one line. *)
Lemma add_to_cart_count_witness :
  snd (run (get_cart_count no_faults)
         (fst (run (add_to_cart no_faults 1 49) one_line)))
  = Returned 1.
Proof.
  destruct (add_to_cart_count no_faults one_line 1 49 (Cart.mk 1 1 1 99))
    as (n & Hn & Hafter); [reflexivity|].
  injection Hn as <-. exact Hafter.
Defined.

(** ** Checkout, further *)

Lemma total_of_none (ps : list Product.t) (l : list Cart.t) (acc : Q) :
  total_of ps l acc = None <->
  exists c, In c l /\ forall p, In p ps -> Product.id p <> Cart.product_id c.
Proof.
  revert acc. induction l as [|c l IH]; intros acc; cbn [total_of In].
  - split; [discriminate|]. now intros (c & [] & _).
  - destruct (find (fun p => Product.id p =? Cart.product_id c) ps)
      as [p|] eqn:F.
    + rewrite IH. apply find_some in F. destruct F as [Hin Hid].
      apply Z.eqb_eq in Hid.
      split; intros (c' & Hc' & Hmiss).
      * exists c'. split; [now right|exact Hmiss].
      * destruct Hc' as [<-|Hc']; [now apply Hmiss in Hin|].
        now exists c'.
    + split; [intros _|reflexivity].
      exists c. split; [now left|].
      intros p Hin. apply find_none with (x := p) in F; [|exact Hin].
      now apply Z.eqb_neq.
Qed.

(** X10: without a fault, Checkout raises [AttributeError] (a 500, not a
    4xx) exactly when some cart line points at a product that is not in the
    catalogue, and then it has written nothing: no order, and the cart is
    as it was. *)
Theorem create_order_missing_product (now : Z) (db : DB) :
  (snd (run (create_order no_faults now) db) = Raised AttributeError
   <-> dangling db) /\
  (dangling db -> fst (run (create_order no_faults now) db) = db).
Proof.
  unfold dangling. rewrite create_order_run.
  destruct (cart db) as [|c l] eqn:Ecart.
  - split; [split; [discriminate|]|reflexivity].
    now intros (c & [] & _).
  - rewrite <- (total_of_none (products db) (c :: l) 0%Q).
    destruct (total_of (products db) (c :: l) 0%Q); cbn [fst snd].
    + split; [split|]; discriminate.
    + split; [split|]; reflexivity.
Qed.

(** Product 9 is gone from the catalogue. *)
Lemma create_order_missing_product_witness :
  run (create_order no_faults 0) lost_product
  = (lost_product, Raised AttributeError).
Proof.
  destruct (create_order_missing_product 0 lost_product) as [[_ Hanswer] Hdb].
  assert (Hd : dangling lost_product).
  { exists (Cart.mk 2 1 9 1). split; [right; left; reflexivity|].
    intros p [<-|[]]. discriminate. }
  specialize (Hanswer Hd). specialize (Hdb Hd).
  destruct (run (create_order no_faults 0) lost_product) as [db' r].
  cbn [fst snd] in *. now subst.
Defined.



(** X12: a Checkout that returned, whatever failed on the way, has emptied
    the cart table; the next fault-free Checkout answers 400 "Cart is empty"
    and writes nothing. *)
Theorem create_order_twice
  (fails : nat -> bool) (now now' : Z) (db : DB) (o : Order.t) :
  snd (run (create_order fails now) db) = Returned o ->
  cart (fst (run (create_order fails now) db)) = [] /\
  run (create_order no_faults now') (fst (run (create_order fails now) db))
  = (fst (run (create_order fails now) db),
     Raised (HTTPException 400 CartIsEmpty)).
Proof.
  intros Hret.
  destruct (create_order_outcomes fails now db)
    as [(o' & E)|[(e & E)|(o' & E)]]; rewrite E in Hret |- *;
    cbn [fst snd] in *; try discriminate.
  split; [reflexivity|]. now rewrite create_order_run.
Qed.

(** Checkout of the fifty fish, twice. *)
Lemma create_order_twice_witness :
  snd (run (create_order no_faults 1)
         (fst (run (create_order no_faults 0) one_line)))
  = Raised (HTTPException 400 CartIsEmpty).
Proof.
  destruct (create_order_twice no_faults 0 1 one_line
              (Order.mk 1 1 (0 + (10 # 1) * inject_Z 50)%Q "pending" 0))
    as [_ ->]; reflexivity.
Defined.

(** ** Primary keys *)

(** The order that a Checkout leaves in the Order store, when it leaves
    one, is the new order for some total. *)
Lemma create_order_orders (fails : nat -> bool) (now : Z) (db : DB) :
  orders (fst (run (create_order fails now) db)) = orders db \/
  exists t,
    orders (fst (run (create_order fails now) db))
    = orders db ++ [new_order now db t].
Proof.
  unfold create_order. unfold_session.
  destruct (fails 0%nat); [now left|].
  cbn [committed pending ncalls]. rewrite filter_all.
  destruct (cart db) as [|c l] eqn:Ecart; [now left|].
  match goal with
  | |- context [sum_prices _ ?items ?a ?s] =>
      destruct (sum_prices_session fails items a s) as (n & r & E)
  end.
  rewrite E. cbn [committed pending ncalls].
  destruct r as [t|e]; [|now left].
  destruct (fails n); [now left|].
  cbn [committed pending ncalls].
  destruct (fails (S n)); [right; now exists t|].
  cbn [committed pending ncalls orders with_orders].
  fold (new_order now db t).
  rewrite (find_order_fresh (orders db) (new_order now db t)) by reflexivity.
  cbn [committed pending ncalls].
  destruct (fails (S (S n))); [right; now exists t|].
  cbn [committed pending ncalls].
  destruct (fails (S (S (S n)))); right; now exists t.
Qed.

Lemma orders_pk_snoc (now : Z) (db : DB) (t : Q) :
  orders_pk db -> NoDup (map Order.id (orders db ++ [new_order now db t])).
Proof.
  intros Hpk. rewrite map_app. cbn [map new_order Order.id].
  apply NoDup_app; [exact Hpk|constructor; [intros []|constructor]|].
  intros x Hx [<-|[]]. apply next_id_above in Hx. lia.
Qed.

(** X13: ids stay keys.  From a database in which the cart ids and the
    order ids are each without duplicates, every operation, whatever its
    arguments and whatever fails, gives such a database again: a new cart
    line or order never takes an id that is in use. *)
Theorem primary_keys_kept
  (fails : nat -> bool) (now : Z) (r : request) (db : DB) :
  cart_pk db -> orders_pk db ->
  cart_pk (serve fails now r db) /\ orders_pk (serve fails now r db).
Proof.
  intros Hc Ho. split; [now apply cart_pk_preserved|].
  unfold orders_pk in *. destruct r as [pid q|cid q|cid|]; cbn [serve].
  - destruct (add_to_cart_persisted fails db pid q) as [->| ->];
      [exact Ho|].
    destruct (add_to_cart_frame db pid q Hc) as (_ & _ & _ & -> & _).
    exact Ho.
  - destruct (update_cart_quantity_persisted fails db cid q) as [->| ->];
      [exact Ho|].
    destruct (update_cart_quantity_frame db cid q) as (_ & _ & _ & -> & _).
    exact Ho.
  - destruct (remove_from_cart_persisted fails db cid) as [->| ->];
      [exact Ho|].
    destruct (remove_from_cart_frame db cid) as (_ & _ & _ & -> & _).
    exact Ho.
  - destruct (create_order_orders fails now db) as [->|[t ->]];
      [exact Ho|now apply orders_pk_snoc].
Qed.

(** A Checkout next to the order of user 2: the new order gets id 2. *)
Lemma primary_keys_kept_witness :
  cart_pk (serve no_faults 0 Checkout two_users) /\
  map Order.id (orders (serve no_faults 0 Checkout two_users)) = [1; 2].
Proof.
  split; [|reflexivity].
  apply (primary_keys_kept no_faults 0 Checkout two_users).
  - unfold cart_pk. cbn [two_users cart map Cart.id].
    constructor; [cbn [In]; intros [H|[]]; discriminate H|].
    constructor; [intros []|constructor].
  - unfold orders_pk. cbn [two_users orders map Order.id].
    constructor; [intros []|constructor].
Defined.

(** ** The schema in front of AddItem *)

(** X14: for a payload that [CartItemCreate] admits, the first bound check
    of AddItem never fires.  Whatever fails, an [HTTPException] of AddItem
    is then either the 404 for a product that is not in the catalogue, or
    the 400 for a merged quantity above 99 on the user's line for the
    product; and quantities in [1, 99] stay in [1, 99]. *)
Theorem add_to_cart_valid_payload
  (fails : nat -> bool) (db : DB) (item : CartItemCreate.t) :
  CartItemCreate.valid item = true ->
  let product_id := CartItemCreate.product_id item in
  let quantity := CartItemCreate.quantity item in
  (forall code d,
     snd (run (add_to_cart fails product_id quantity) db)
     = Raised (HTTPException code d) ->
     (code = 404 /\ d = ProductNotFound /\
      forall p, In p (products db) -> Product.id p <> product_id)
     \/
     (code = 400 /\ d = TotalQuantityOverMax /\
      exists e, find (owned_product product_id) (cart db) = Some e /\
                Cart.quantity e + quantity > MAX_QUANTITY))
  /\
  (cart_inv db -> cart_inv (fst (run (add_to_cart fails product_id quantity) db))).
Proof.
  intros Hvalid product_id quantity.
  assert (Hq : 1 <= quantity <= MAX_QUANTITY).
  { unfold CartItemCreate.valid in Hvalid.
    rewrite !andb_true_iff, !Z.ltb_lt, Z.leb_le in Hvalid.
    subst quantity. unfold MAX_QUANTITY.
    unfold CartItemCreate.MAX_QUANTITY in Hvalid. lia. }
  split.
  - intros code d Hexc.
    destruct (add_to_cart_single_commit fails db product_id quantity)
      as (_ & _ & Hclean).
    destruct (Hclean code d Hexc) as [E _].
    rewrite E in Hexc. clear Hclean E. rewrite add_to_cart_run in Hexc.
    destruct (Z.gtb_spec quantity MAX_QUANTITY); [lia|].
    destruct (find (fun p => Product.id p =? product_id) (products db))
      as [p|] eqn:Fp.
    + destruct (find (owned_product product_id) (cart db)) as [e|] eqn:Fe.
      * destruct (Z.gtb_spec (Cart.quantity e + quantity) MAX_QUANTITY).
        -- cbn [snd] in Hexc. injection Hexc as <- <-.
           right. repeat split. exists e. split; [reflexivity|lia].
        -- cbv zeta in Hexc. cbn [snd] in Hexc. unfold refreshed in Hexc.
           destruct (find _ _) in Hexc; discriminate.
      * cbv zeta in Hexc. cbn [snd] in Hexc. unfold refreshed in Hexc.
        destruct (find _ _) in Hexc; discriminate.
    + cbn [snd] in Hexc. injection Hexc as <- <-.
      left. repeat split. now apply find_product_none.
  - intros Hinv. apply (serve_inv fails 0 (AddItem product_id quantity));
      [cbn [admitted]; lia|exact Hinv].
Qed.

(** Sixty fish onto fifty: the payload is fine, the total is not. *)
Lemma add_to_cart_valid_payload_witness :
  snd (run (add_to_cart no_faults 1 60) one_line)
  = Raised (HTTPException 400 TotalQuantityOverMax) /\
  cart_inv (fst (run (add_to_cart no_faults 1 60) one_line)).
Proof.
  split; [reflexivity|].
  apply (add_to_cart_valid_payload no_faults one_line (CartItemCreate.mk 1 60));
    [reflexivity|].
  constructor; [|constructor].
  unfold quantity_in_range. cbn [Cart.quantity]. lia.
Defined.
